(** * A shallow embedding of the linear-sweep x86 disassembler

    Sources embedded: [src/instruction_data.py] (the opcode table, the
    register names, the register-embedded opcode list) and
    [src/disassemble.py] (the instruction token, its rendering, the three
    decoders, the top-level dispatch and the linear sweep).

    Conventions.
    - A [bytearray] is a [list byte]; [byte_val] gives the integer a Python
      subscript returns.  Python integers are [Z].
    - A Python exception is a value of [exn]; a function that may raise
      returns a [result].  [try ... except Exception] is a [match] on the
      result.
    - A [dict] is a [gmap]; the opcode table is built with [list_to_map]
      from the literal, in the order the literal lists the entries.
    - [disassemble.py] spells the enumeration [Encodings] while
      [instruction_data.py] declares it as [ENCODINGS]; both denote the
      eleven-valued enumeration [Encodings] below. *)

From Stdlib Require Import ZArith Lia Strings.Byte Strings.Ascii.
From stdpp Require Import base option list gmap strings.

Local Open Scope Z_scope.

(** ** Python primitives *)

Inductive exn : Type :=
  | IndexError
  | KeyError
  | TypeError
  | ValueError
  | UnboundLocalError
  | Exception (msg : string).

Inductive result (A : Type) : Type :=
  | Ok (a : A)
  | Raise (e : exn).
Arguments Ok {A} a.
Arguments Raise {A} e.

#[export] Instance result_ret : MRet result := fun A a => Ok a.
#[export] Instance result_bind : MBind result := fun A B f m =>
  match m with
  | Ok a => f a
  | Raise e => Raise e
  end.

(** The value a [bytearray] subscript yields, [0 <= _ < 256]. *)
Definition byte_val (b : byte) : Z := Z.of_N (Byte.to_N b).

(** [l[i]]: a negative index counts from the end, an index out of range
    raises [IndexError]. *)
Definition py_index {A} (l : list A) (i : Z) : result A :=
  let n := Z.of_nat (length l) in
  let j := if i <? 0 then i + n else i in
  if (j <? 0) || (n <=? j) then Raise IndexError
  else match l !! Z.to_nat j with
       | Some x => Ok x
       | None => Raise IndexError
       end.

(** One bound of a slice, clamped the way Python clamps it. *)
Definition slice_bound (n : Z) (dflt : Z) (i : option Z) : Z :=
  match i with
  | None => dflt
  | Some i => if i <? 0 then Z.max 0 (i + n) else Z.min i n
  end.

(** [l[lo:hi]]; never raises. *)
Definition py_slice {A} (l : list A) (lo hi : option Z) : list A :=
  let n := Z.of_nat (length l) in
  let a := slice_bound n 0 lo in
  let b := slice_bound n n hi in
  take (Z.to_nat (b - a)) (drop (Z.to_nat a) l).

(** [int.from_bytes(bs, "little", signed=False)]. *)
Fixpoint from_bytes_little (bs : list byte) : Z :=
  match bs with
  | [] => 0
  | b :: bs' => byte_val b + 256 * from_bytes_little bs'
  end.

(** [int.from_bytes(bs, "little", signed=True)]: two's complement on
    [8 * len(bs)] bits; the empty sequence gives 0. *)
Definition from_bytes_little_signed (bs : list byte) : Z :=
  let u := from_bytes_little bs in
  let w := 8 * Z.of_nat (length bs) in
  if (0 <? w) && (2 ^ (w - 1) <=? u) then u - 2 ^ w else u.

(** [int.from_bytes(bs, "big")]. *)
Definition from_bytes_big (bs : list byte) : Z :=
  fold_left (fun acc b => 256 * acc + byte_val b) bs 0.

(** *** Number formatting *)

Definition digit_char (d : Z) : ascii :=
  match d with
  | 0 => "0" | 1 => "1" | 2 => "2" | 3 => "3" | 4 => "4" | 5 => "5"
  | 6 => "6" | 7 => "7" | 8 => "8" | 9 => "9" | 10 => "A" | 11 => "B"
  | 12 => "C" | 13 => "D" | 14 => "E" | _ => "F"
  end%char.

(** The digits of [n >= 0] in base [b], most significant first, without
    leading zeros ([0] is one digit).  [fuel] bounds the digit count. *)
Fixpoint digits (b : Z) (fuel : nat) (n : Z) : list ascii :=
  match fuel with
  | O => []
  | S f => (if n <? b then [] else digits b f (n / b)) ++ [digit_char (n mod b)]
  end.

Definition nat_digits (b : Z) (n : Z) : list ascii :=
  digits b (S (Z.to_nat (Z.log2 n))) n.

(** [str(n)] for an [int]. *)
Definition str_int (n : Z) : string :=
  String.string_of_list_ascii
    ((if n <? 0 then ["-"%char] else []) ++ nat_digits 10 (Z.abs n)).

(** [format(n, "X")]. *)
Definition format_X (n : Z) : string :=
  String.string_of_list_ascii
    ((if n <? 0 then ["-"%char] else []) ++ nat_digits 16 (Z.abs n)).

(** [format(n, "0wX")]: the sign, then the uppercase hexadecimal digits of
    [|n|] padded with zeros on the left so that the whole text has at least
    [w] characters. *)
Definition format_0wX (w : nat) (n : Z) : string :=
  let sign := if n <? 0 then ["-"%char] else [] in
  let ds := nat_digits 16 (Z.abs n) in
  String.string_of_list_ascii
    (sign ++ replicate (w - length sign - length ds) "0"%char ++ ds).

(** Exactly [w] uppercase hexadecimal digits of [n], most significant
    first: the reading of "[w] hex digits of the value". *)
Fixpoint hex_fixed (w : nat) (n : Z) : list ascii :=
  match w with
  | O => []
  | S w' => hex_fixed w' (n / 16) ++ [digit_char (n mod 16)]
  end.

Definition is_upper_hex (c : ascii) : bool :=
  bool_decide (c ∈ String.list_ascii_of_string "0123456789ABCDEF").

(** ** [instruction_data.py] *)

(** The enumeration of operand encodings. *)
Inductive Encodings : Type :=
  | I | MI | MR | RM | M | O | OI | D | FD | TD | ZO.

#[export] Instance Encodings_eq_dec : EqDecision Encodings.
Proof. solve_decision. Defined.

(** [class InstructionInfo]; the defaults of [__init__] are written out at
    each entry of the table. *)
Record InstructionInfo : Type := mkInfo {
  opcode : Z;
  mnemonic : option string;
  has_modrm : bool;
  encoding : Encodings;
  extension_map : option (gmap Z string);
  addressing_modes : list Z;
  opcode_plus : bool;
  prefix_map : option (gmap Z string);
  imm_size : Z
}.

(** [InstructionInfo(opcode, mnemonic, has_modrm, encoding)] with every
    keyword argument at its default. *)
Definition info (op : Z) (mn : string) (modrm : bool) (enc : Encodings)
  : InstructionInfo :=
  mkInfo op (Some mn) modrm enc None [0; 1; 2; 3] false None 4.

(** The same with [imm_size] given. *)
Definition info_imm (op : Z) (mn : string) (modrm : bool) (enc : Encodings)
    (w : Z) : InstructionInfo :=
  mkInfo op (Some mn) modrm enc None [0; 1; 2; 3] false None w.

(** The same with [opcode_plus=True]. *)
Definition info_plus (op : Z) (mn : string) (modrm : bool) (enc : Encodings)
  : InstructionInfo :=
  mkInfo op (Some mn) modrm enc None [0; 1; 2; 3] true None 4.

(** An extension group: no mnemonic, [extension_map] given. *)
Definition info_ext (op : Z) (enc : Encodings) (ext : list (Z * string))
    (modes : list Z) : InstructionInfo :=
  mkInfo op None true enc (Some (list_to_map ext)) modes false None 4.

Definition GLOBAL_REGISTER_NAMES : list string :=
  ["eax"; "ecx"; "edx"; "ebx"; "esp"; "ebp"; "esi"; "edi"]%string.

Definition REGADD_OPCODES : list Z := [0x48; 0x40; 0xB8; 0x58; 0x50].

(** The literal of [GLOBAL_INSTRUCTIONS_MAP], entry by entry. *)
Definition GLOBAL_INSTRUCTIONS_LITERAL : list (Z * InstructionInfo) :=
  [ (0x05, info 0x05 "add eax," false I);
    (0x01, info 0x01 "add" true MR);
    (0x03, info 0x03 "add" true RM);
    (0x25, info 0x25 "and eax," false I);
    (0x21, info 0x21 "and" true MR);
    (0x23, info 0x23 "and" true RM);
    (0xE8, info 0xE8 "call" false D);
    (0x0FAE, info_ext 0x0FAE M [(7, "clflush")] [0; 1; 2]);
    (0x3D, info 0x3D "cmp eax," false I);
    (0x39, info 0x39 "cmp" true MR);
    (0x3B, info 0x3B "cmp" true RM);
    (0x48, info_plus 0x48 "dec" false O);
    (0x40, info_plus 0x40 "inc" false O);
    (0xEB, info_imm 0xEB "jmp" false D 1);
    (0xE9, info 0xE9 "jmp" false D);
    (0x74, info_imm 0x74 "jz" false D 1);
    (0x75, info_imm 0x75 "jnz" false D 1);
    (0x0F85, info 0x0F85 "jnz" false D);
    (0x0F84, info 0x0F84 "jz" false D);
    (0x8D, mkInfo 0x8D (Some "lea") true RM None [0; 1; 2] false None 4);
    (0xA1, info 0xA1 "mov" false FD);
    (0xA3, info 0xA3 "mov" false TD);
    (0xB8, info 0xB8 "mov" false OI);
    (0xC7, info_ext 0xC7 MI [(0, "mov")] [0; 1; 2; 3]);
    (0x89, info 0x89 "mov" true MR);
    (0x8B, info 0x8B "mov" true RM);
    (0xA5, info 0xA5 "movsd" false ZO);
    (0x90, info 0x90 "nop" false ZO);
    (0x0D, info 0x0D "or eax," false I);
    (0x09, info 0x09 "or" true MR);
    (0x0B, info 0x0B "or" true RM);
    (0x8F, info_ext 0x8F M [(0, "pop")] [0; 1; 2; 3]);
    (0x58, info 0x58 "pop" false O);
    (0x50, info 0x50 "push" false O);
    (0x68, info 0x68 "push" false I);
    (0x6A, info_imm 0x6A "push" false I 1);
    (0xF2A7, info 0xF2A7 "repne cmpsd" false ZO);
    (0xCB, info 0xCB "retf" false ZO);
    (0xCA, info_imm 0xCA "retf" false I 2);
    (0xC3, info 0xC3 "retn" false ZO);
    (0xC2, info_imm 0xC2 "retn" false I 2);
    (0x2D, info 0x2D "sub" false I);
    (0x29, info 0x29 "sub" true MR);
    (0x2B, info 0x2B "sub" true RM);
    (0xA9, info 0xA9 "test eax," false I);
    (0x85, info 0x85 "test" true MR);
    (0x35, info 0x35 "xor eax," false I);
    (0x31, info 0x31 "xor" true MR);
    (0x33, info 0x33 "xor" true RM);
    (0xFF, info_ext 0xFF M
             [(0, "inc"); (1, "dec"); (2, "call"); (4, "jmp"); (6, "push")]
             [0; 1; 2; 3]);
    (0x81, info_ext 0x81 MI
             [(0, "add"); (1, "or"); (4, "and"); (5, "sub"); (6, "xor");
              (7, "cmp")]
             [0; 1; 2; 3]);
    (0xF7, info_ext 0xF7 M [(0, "test"); (2, "not"); (7, "idiv")]
             [0; 1; 2; 3]) ]%string.

Definition GLOBAL_INSTRUCTIONS_MAP : gmap Z InstructionInfo :=
  list_to_map GLOBAL_INSTRUCTIONS_LITERAL.

(** ** [byte_utils] *)

(** Modelled from the spec: [byte_utils.parse_modrm] is imported by
    [disassemble.py] and is not among the sources.  The spec gives the
    addressing descriptor byte as a 2-bit mode selector at bits 7-6, a 3-bit
    register/extension selector at bits 5-3 and a 3-bit operand selector at
    bits 2-0; any byte is a valid input. *)
Definition parse_modrm (b : Z) : Z * Z * Z :=
  (Z.land (Z.shiftr b 6) 3, Z.land (Z.shiftr b 3) 7, Z.land b 7).

(** Modelled from the spec: [byte_utils.parse_sib] is not among the
    sources.  The spec gives the scale multiplier as 2 raised to the 2-bit
    field at bits 7-6, the index selector at bits 5-3 and the base selector
    at bits 2-0. *)
Definition parse_sib (b : Z) : Z * Z * Z :=
  (2 ^ Z.land (Z.shiftr b 6) 3, Z.land (Z.shiftr b 3) 7, Z.land b 7).

(** Modelled from the spec: [byte_utils.to_signed] is not among the
    sources.  The spec maps an unsigned byte to its two's-complement
    reading: values of 128 and above become the value minus 256. *)
Definition to_signed (b : Z) : Z :=
  if 128 <=? b then b - 256 else b.

(** ** [disassemble.py]: the instruction token *)

(** What the [immediate] attribute holds at run time: [None], an [int] or a
    [str]. *)
Inductive pyval : Type :=
  | PNone
  | PInt (n : Z)
  | PStr (s : string).

Module Instruction.

(** [class Instruction]. *)
Record t : Type := mk {
  mnemonic : option string;
  encoding : option Encodings;
  immediate : pyval;
  reg : option string;
  rm : option string;
  scale : option Z;
  index : option Z;
  base : option Z;
  is_db : bool
}.

(** [Instruction()] with every keyword at its default. *)
Definition init : t := mk None None PNone None None None None None false.

Definition with_immediate (v : pyval) (i : t) : t :=
  mk (mnemonic i) (encoding i) v (reg i) (rm i) (scale i) (index i)
     (base i) (is_db i).

Definition with_reg (v : option string) (i : t) : t :=
  mk (mnemonic i) (encoding i) (immediate i) v (rm i) (scale i) (index i)
     (base i) (is_db i).

Definition with_rm (v : option string) (i : t) : t :=
  mk (mnemonic i) (encoding i) (immediate i) (reg i) v (scale i) (index i)
     (base i) (is_db i).

(** [Instruction(immediate=b, is_db=True)]. *)
Definition db (b : Z) : t :=
  mk None None (PInt b) None None None None None true.

End Instruction.

(** [f"{x}"] for an attribute that is a [str] or [None]. *)
Definition fmt_opt (s : option string) : string :=
  match s with
  | Some s => s
  | None => "None"
  end.

(** [f"{x}"] for the [immediate] attribute. *)
Definition fmt_val (v : pyval) : string :=
  match v with
  | PNone => "None"
  | PInt n => str_int n
  | PStr s => s
  end.

(** [f"{x:0wX}"]: defined on an [int] only. *)
Definition fmt_val_0wX (w : nat) (v : pyval) : result string :=
  match v with
  | PInt n => Ok (format_0wX w n)
  | PStr _ => Raise ValueError
  | PNone => Raise TypeError
  end.

(** [Instruction.__str__]. *)
Definition Instruction_str (i : Instruction.t) : result string :=
  let mn := fmt_opt (Instruction.mnemonic i) in
  let rm := fmt_opt (Instruction.rm i) in
  let reg := fmt_opt (Instruction.reg i) in
  let imm := fmt_val (Instruction.immediate i) in
  if Instruction.is_db i then
    h ← fmt_val_0wX 2 (Instruction.immediate i);
    Ok ("db 0x" +:+ h)
  else
    match Instruction.encoding i with
    | Some M => Ok (mn +:+ " " +:+ rm)
    | Some MI => Ok (mn +:+ " " +:+ rm +:+ ", " +:+ imm)
    | Some MR => Ok (mn +:+ " " +:+ rm +:+ ", " +:+ reg)
    | Some RM => Ok (mn +:+ " " +:+ reg +:+ ", " +:+ rm)
    | Some I => Ok (mn +:+ " " +:+ imm)
    | Some O => Ok (mn +:+ " " +:+ reg)
    | Some OI => Ok (mn +:+ " " +:+ reg +:+ ", " +:+ imm)
    | Some FD => Ok (mn +:+ " " +:+ reg +:+ ", " +:+ imm)
    | Some TD => Ok (mn +:+ " " +:+ imm +:+ ", " +:+ reg)
    | Some D => Ok (mn +:+ " " +:+ imm)
    | _ =>
        match Instruction.mnemonic i with
        | Some s => Ok s
        | None => Raise TypeError
        end
    end.

(** ** Opcode extension and addressing mode *)

(** The truth value of [instruction_info.extension_map]: [None] and the
    empty [dict] are false. *)
Definition extension_map_truthy (ii : InstructionInfo) : bool :=
  match extension_map ii with
  | Some m => negb (bool_decide (m = ∅))
  | None => false
  end.

Definition invalid_extension_msg (reg : Z) (ii : InstructionInfo) : string :=
  "INVALID OPCODE EXTENSION " +:+ str_int reg +:+ " FOR OPCODE "
    +:+ format_X (opcode ii).

Definition invalid_mode_msg (mod_ : Z) (ii : InstructionInfo) : string :=
  "INVALID ADDRESSING MODE " +:+ str_int mod_ +:+ " FOR OPCODE "
    +:+ format_X (opcode ii).

(** [reg in instruction_info.extension_map]. *)
Definition in_extension_map (reg : Z) (ii : InstructionInfo) : bool :=
  match extension_map ii with
  | Some m => bool_decide (is_Some (m !! reg))
  | None => false
  end.

(** [modrm_get_mnemonic]. *)
Definition modrm_get_mnemonic (reg : Z) (instruction_info : InstructionInfo)
  : result (option string) :=
  if extension_map_truthy instruction_info
     && in_extension_map reg instruction_info then
    match extension_map instruction_info ≫= (.!! reg) with
    | Some mn => Ok (Some mn)
    | None => Raise KeyError
    end
  else if extension_map_truthy instruction_info then
    Raise (Exception (invalid_extension_msg reg instruction_info))
  else Ok (mnemonic instruction_info).

(** [modrm_get_addressing_mode]. *)
Definition modrm_get_addressing_mode (mod_ : Z)
    (instruction_info : InstructionInfo) : result Z :=
  if bool_decide (mod_ ∈ addressing_modes instruction_info) then Ok mod_
  else Raise (Exception (invalid_mode_msg mod_ instruction_info)).

(** ** The addressing-byte decoder *)

Definition reg_name (i : Z) : result string :=
  py_index GLOBAL_REGISTER_NAMES i.

(** [if not displacement == 0: rm += f" + 0x{displacement:08X}"], the text
    appended for a dword displacement. *)
Definition disp32_text (displacement : Z) : string :=
  if displacement =? 0 then ""
  else " + 0x" +:+ format_0wX 8 displacement.

(** The text appended for a byte displacement:
    [f" {"+" if displacement > 0 else "-"} 0x{abs(displacement):02X}"]
    unless the displacement is 0. *)
Definition disp8_text (displacement : Z) : string :=
  if displacement =? 0 then ""
  else " " +:+ (if 0 <? displacement then "+" else "-") +:+ " 0x"
         +:+ format_0wX 2 (Z.abs displacement).

(** [modrm_disassemble]; [data] starts after the opcode. *)
Definition modrm_disassemble (data : list byte) (opcode_size : Z)
    (instruction_info : InstructionInfo) : result (Instruction.t * Z) :=
  let instruction_size := opcode_size + 1 in
  d0 ← py_index data 0;
  let '(mod_, reg, rm) := parse_modrm (byte_val d0) in
  mn ← modrm_get_mnemonic reg instruction_info;
  rname ← reg_name reg;
  let instruction :=
    Instruction.mk mn (Some (encoding instruction_info)) PNone (Some rname)
                   None None None None false in
  mod_ ← modrm_get_addressing_mode mod_ instruction_info;
  '(rm_text, instruction_size) ←
    (if mod_ =? 3 then
       r ← reg_name rm;
       Ok (r, instruction_size)
     else if mod_ =? 2 then
       '(head, displacement, instruction_size) ←
         (if rm =? 4 then
            let instruction_size := instruction_size + 5 in
            let displacement :=
              from_bytes_little (py_slice data (Some 2) (Some 6)) in
            d1 ← py_index data 1;
            let '(scale, index, base) := parse_sib (byte_val d1) in
            if index =? 4 then
              b ← reg_name base;
              Ok ("[ dword " +:+ b, displacement, instruction_size)
            else
              i ← reg_name index;
              b ← reg_name base;
              Ok ("[ dword " +:+ i +:+ "*" +:+ str_int scale +:+ " + " +:+ b,
                  displacement, instruction_size)
          else
            let instruction_size := instruction_size + 4 in
            let displacement :=
              from_bytes_little (py_slice data (Some 1) (Some 5)) in
            r ← reg_name rm;
            Ok ("[ dword " +:+ r, displacement, instruction_size));
       Ok (head +:+ disp32_text displacement +:+ " ]", instruction_size)
     else if mod_ =? 1 then
       '(head, displacement, instruction_size) ←
         (if rm =? 4 then
            let instruction_size := instruction_size + 2 in
            d2 ← py_index data 2;
            let displacement := to_signed (byte_val d2) in
            d1 ← py_index data 1;
            let '(scale, index, base) := parse_sib (byte_val d1) in
            if index =? 4 then
              b ← reg_name base;
              Ok ("[ byte " +:+ b, displacement, instruction_size)
            else
              i ← reg_name index;
              b ← reg_name base;
              Ok ("[ byte " +:+ i +:+ "*" +:+ str_int scale +:+ " + " +:+ b,
                  displacement, instruction_size)
          else
            let instruction_size := instruction_size + 1 in
            d1 ← py_index data 1;
            let displacement := to_signed (byte_val d1) in
            r ← reg_name rm;
            Ok ("[ byte " +:+ r, displacement, instruction_size));
       Ok (head +:+ disp8_text displacement +:+ " ]", instruction_size)
     else
       if rm =? 5 then
         let instruction_size := instruction_size + 4 in
         let displacement :=
           from_bytes_little (py_slice data (Some 1) (Some 5)) in
         Ok ("[ 0x" +:+ format_0wX 8 displacement +:+ " ]", instruction_size)
       else if rm =? 4 then
         let instruction_size := instruction_size + 1 in
         d1 ← py_index data 1;
         let '(scale, index, base) := parse_sib (byte_val d1) in
         if index =? 4 then
           b ← reg_name base;
           Ok ("[ " +:+ b +:+ " ]", instruction_size)
         else if base =? 5 then
           i ← reg_name index;
           let instruction_size := instruction_size + 4 in
           let displacement :=
             from_bytes_little (py_slice data (Some 2) (Some 6)) in
           Ok ("[ " +:+ i +:+ "*" +:+ str_int scale
                 +:+ disp32_text displacement +:+ " ]", instruction_size)
         else
           i ← reg_name index;
           b ← reg_name base;
           Ok ("[ " +:+ i +:+ "*" +:+ str_int scale +:+ " + " +:+ b +:+ " ]",
               instruction_size)
       else
         r ← reg_name rm;
         Ok ("[ " +:+ r +:+ " ]", instruction_size));
  let instruction := Instruction.with_rm (Some rm_text) instruction in
  if bool_decide (encoding instruction_info = MI) then
    let imm :=
      from_bytes_little
        (py_slice data (Some (instruction_size - 1))
           (Some (instruction_size - 1 + imm_size instruction_info))) in
    let immediate :=
      if imm_size instruction_info =? 4
      then PStr ("0x" +:+ format_0wX 8 imm) else PInt imm in
    Ok (Instruction.with_immediate immediate instruction,
        instruction_size + imm_size instruction_info)
  else Ok (instruction, instruction_size).

(** ** The decoder of instructions without an addressing byte *)

(** [no_modrm_no_regadd_disassemble]; [data] starts after the opcode. *)
Definition no_modrm_no_regadd_disassemble (data : list byte) (opcode_size : Z)
    (instruction_info : InstructionInfo) (offset : Z)
  : result (Instruction.t * Z) :=
  let instruction_size := opcode_size in
  let instruction :=
    Instruction.mk (mnemonic instruction_info)
      (Some (encoding instruction_info)) PNone None None None None None
      false in
  if negb (bool_decide (Instruction.encoding instruction = Some ZO)) then
    let instruction :=
      if bool_decide (encoding instruction_info = TD)
         || bool_decide (encoding instruction_info = FD)
      then Instruction.with_reg (Some "eax") instruction
      else instruction in
    let instruction_size := instruction_size + imm_size instruction_info in
    let bs := py_slice data None (Some (imm_size instruction_info)) in
    if bool_decide (Instruction.encoding instruction = Some I) then
      if imm_size instruction_info =? 4 then
        let imm := from_bytes_little bs in
        Ok (Instruction.with_immediate (PStr ("0x" +:+ format_0wX 8 imm))
              instruction, instruction_size)
      else if imm_size instruction_info =? 2 then
        let imm := from_bytes_little bs in
        Ok (Instruction.with_immediate (PStr ("0x" +:+ format_0wX 4 imm))
              instruction, instruction_size)
      else
        let imm := from_bytes_little_signed bs in
        Ok (Instruction.with_immediate (PStr (str_int imm)) instruction,
            instruction_size)
    else
      let imm :=
        if imm_size instruction_info =? 4
        then from_bytes_little_signed bs
        else from_bytes_little_signed bs in
      Ok (Instruction.with_immediate (PInt (imm + (offset + instruction_size)))
            instruction, instruction_size)
  else Ok (instruction, instruction_size).

(** ** The register-embedded decoder *)

(** [GLOBAL_INSTRUCTIONS_MAP[k]]. *)
Definition instructions_getitem (k : Z) : result InstructionInfo :=
  match GLOBAL_INSTRUCTIONS_MAP !! k with
  | Some ii => Ok ii
  | None => Raise KeyError
  end.

(** The [for] loop of [regadd_check_opcode] over the rest of the list. *)
Fixpoint regadd_scan (opcodes : list Z) (opcode : Z)
  : result (option InstructionInfo) :=
  match opcodes with
  | [] => Ok None
  | regadd_opcode :: rest =>
      if (0 <=? opcode - regadd_opcode) && (opcode - regadd_opcode <? 8)
      then ii ← instructions_getitem regadd_opcode; Ok (Some ii)
      else regadd_scan rest opcode
  end.

(** [regadd_check_opcode]. *)
Definition regadd_check_opcode (opcode : Z) : result (option InstructionInfo) :=
  regadd_scan REGADD_OPCODES opcode.

(** The index [regadd_disassemble] uses into the register names. *)
Definition regadd_index (d0 : Z) (instruction_info : InstructionInfo) : Z :=
  d0 - opcode instruction_info.

(** [regadd_disassemble]; [data] starts at the opcode byte. *)
Definition regadd_disassemble (data : list byte)
    (instruction_info : InstructionInfo) : result (Instruction.t * Z) :=
  let instruction_size := 1 in
  d0 ← py_index data 0;
  r ← reg_name (regadd_index (byte_val d0) instruction_info);
  let instruction :=
    Instruction.mk (mnemonic instruction_info)
      (Some (encoding instruction_info)) PNone (Some r) None None None None
      false in
  if bool_decide (encoding instruction_info = OI) then
    let instruction_size := instruction_size + imm_size instruction_info in
    let imm :=
      from_bytes_little (py_slice data (Some 1) (Some instruction_size)) in
    Ok (Instruction.with_immediate (PStr ("0x" +:+ format_0wX 8 imm))
          instruction, instruction_size)
  else Ok (instruction, instruction_size).

(** ** Top-level dispatch *)

(** The first part of [disassemble]: which record decodes [data], and the
    value of the local [opcode_size], which stays unbound ([None]) when the
    record comes from [regadd_check_opcode].  The outer [None] is the
    unknown-opcode case. *)
Definition select_record (data : list byte)
  : result (option (option Z * InstructionInfo)) :=
  d0 ← py_index data 0;
  match GLOBAL_INSTRUCTIONS_MAP !! byte_val d0 with
  | Some ii => Ok (Some (Some 1, ii))
  | None =>
      match GLOBAL_INSTRUCTIONS_MAP
              !! from_bytes_big (py_slice data None (Some 2)) with
      | Some ii => Ok (Some (Some 2, ii))
      | None =>
          r ← regadd_check_opcode (byte_val d0);
          match r with
          | Some ii => Ok (Some (None, ii))
          | None => Ok None
          end
      end
  end.

(** Reading a local variable that may be unbound. *)
Definition local (v : option Z) : result Z :=
  match v with
  | Some z => Ok z
  | None => Raise UnboundLocalError
  end.

(** The body of the [try] of [disassemble]. *)
Definition decode_selected (data : list byte) (opcode_size : option Z)
    (instruction_info : InstructionInfo) (offset : Z)
  : result (Instruction.t * Z) :=
  if has_modrm instruction_info then
    sz ← local opcode_size;
    modrm_disassemble (py_slice data (Some sz) None) sz instruction_info
  else if bool_decide (encoding instruction_info = O)
          || bool_decide (encoding instruction_info = OI) then
    regadd_disassemble data instruction_info
  else
    sz ← local opcode_size;
    no_modrm_no_regadd_disassemble (py_slice data (Some sz) None) sz
      instruction_info offset.

(** [disassemble]. *)
Definition disassemble (data : list byte) (offset : Z)
  : result (Instruction.t * Z) :=
  sel ← select_record data;
  match sel with
  | None =>
      d0 ← py_index data 0;
      Ok (Instruction.db (byte_val d0), 1)
  | Some (opcode_size, instruction_info) =>
      match decode_selected data opcode_size instruction_info offset with
      | Ok r => Ok r
      | Raise _ =>
          d0 ← py_index data 0;
          Ok (Instruction.db (byte_val d0), 1)
      end
  end.

(** ** The linear sweep *)

(** The locals of [linnear_sweep] that live across iterations.  [steps] is
    an observation added to the embedding: the pair
    [(original_offset, instruction_size)] of every iteration, the latest
    first; the Python function does not return it. *)
Record sweep_state : Type := mkSweep {
  counter : Z;
  output_list : gmap Z (Instruction.t * list byte);
  labels : gmap Z string;
  steps : list (Z * Z)
}.

Definition sweep_init : sweep_state := mkSweep 0 ∅ ∅ [].

(** The label text of a destination: [f"offset_{dest:08X}h"]. *)
Definition label_text (dest : string) : string :=
  "offset_" +:+ dest +:+ "h".

(** One iteration of the [while] loop. *)
Definition sweep_body (data : list byte) (st : sweep_state)
  : result sweep_state :=
  let original_offset := counter st in
  '(instruction, instruction_size) ←
    disassemble (py_slice data (Some (counter st)) None) original_offset;
  '(instruction, labels') ←
    (if bool_decide (Instruction.encoding instruction = Some D) then
       dest_addr_str ← fmt_val_0wX 8 (Instruction.immediate instruction);
       let dest_label := label_text dest_addr_str in
       match Instruction.immediate instruction with
       | PInt dest =>
           Ok (Instruction.with_immediate (PStr dest_label) instruction,
               <[dest := dest_label]> (labels st))
       | _ => Raise TypeError
       end
     else Ok (instruction, labels st));
  Ok (mkSweep (counter st + instruction_size)
        (<[original_offset :=
             (instruction,
              py_slice data (Some original_offset)
                (Some (original_offset + instruction_size)))]>
           (output_list st))
        labels'
        ((original_offset, instruction_size) :: steps st)).

(** The [while counter < len(data)] loop; [None] when [fuel] iterations
    were not enough to leave it. *)
Fixpoint sweep_loop (fuel : nat) (data : list byte) (st : sweep_state)
  : option (result sweep_state) :=
  if counter st <? Z.of_nat (length data) then
    match fuel with
    | 0%nat => None
    | S fuel' =>
        match sweep_body data st with
        | Ok st' => sweep_loop fuel' data st'
        | Raise e => Some (Raise e)
        end
    end
  else Some (Ok st).

(** [linnear_sweep], from the buffer [get_file] returned.  The loop runs at
    most [len(data)] times. *)
Definition linnear_sweep (data : list byte)
  : option (result (gmap Z (Instruction.t * list byte) * gmap Z string)) :=
  match sweep_loop (length data) data sweep_init with
  | Some (Ok st) => Some (Ok (output_list st, labels st))
  | Some (Raise e) => Some (Raise e)
  | None => None
  end.

(** ** Checks on the opcode table *)

(** What the decoders rely on about an entry [(k, ii)] of the table: the
    record repeats its key; the immediate width is 1, 2 or 4; an extension
    map, when given, is not empty; a record with an addressing byte has one
    of the four addressing encodings; relative-displacement,
    fixed-accumulator and register-embedded records have no addressing
    byte; a relative displacement is 1 or 4 bytes wide. *)
Definition record_wf (k : Z) (ii : InstructionInfo) : Prop :=
  opcode ii = k
  /\ (imm_size ii = 1 \/ imm_size ii = 2 \/ imm_size ii = 4)
  /\ extension_map ii <> Some ∅
  /\ (has_modrm ii = true ->
      encoding ii = M \/ encoding ii = MI \/ encoding ii = MR
      \/ encoding ii = RM)
  /\ (encoding ii = D ->
      has_modrm ii = false /\ (imm_size ii = 1 \/ imm_size ii = 4))
  /\ (encoding ii = FD \/ encoding ii = TD ->
      has_modrm ii = false /\ imm_size ii = 4)
  /\ (encoding ii = O \/ encoding ii = OI -> has_modrm ii = false)
  /\ (encoding ii = OI -> imm_size ii = 4).

#[export] Instance record_wf_dec (k : Z) (ii : InstructionInfo) :
  Decision (record_wf k ii).
Proof. unfold record_wf. apply _. Defined.

(** ** Observations on a sweep *)

(** The sum of the consumed sizes of the recorded steps. *)
Definition sum_sizes (l : list (Z * Z)) : Z :=
  foldr (fun p acc => p.2 + acc) 0 l.

(** The recorded steps, latest first, tile the range from 0 to [stop]:
    every step starts where the one before it ended. *)
Fixpoint steps_chain (l : list (Z * Z)) (stop : Z) : Prop :=
  match l with
  | [] => stop = 0
  | (o, s) :: l' => stop = o + s /\ steps_chain l' o
  end.

(** Every recorded step starts inside a buffer of [n] bytes and consumes
    at least one byte. *)
Definition steps_inside (n : Z) (l : list (Z * Z)) : Prop :=
  Forall (fun p => 0 <= p.1 < n /\ 1 <= p.2) l.

Definition sweep_inv (data : list byte) (st : sweep_state) : Prop :=
  0 <= counter st
  /\ steps_chain (steps st) (counter st)
  /\ steps_inside (Z.of_nat (length data)) (steps st).

(** ** Reading the operand text of an indexed operand *)

(** The text before the displacement of an operand with a scale-index-base
    byte [sib], for the width tag [tag] ([byte] or [dword]): the base
    register alone when the index selector is 4, otherwise the index
    register times the scale plus the base register. *)
Definition sib_head (tag : string) (sib : Z) : result string :=
  let '(scale, index, base) := parse_sib sib in
  if index =? 4 then
    b ← reg_name base;
    Ok ("[ " +:+ tag +:+ " " +:+ b)
  else
    i ← reg_name index;
    b ← reg_name base;
    Ok ("[ " +:+ tag +:+ " " +:+ i +:+ "*" +:+ str_int scale +:+ " + " +:+ b).

(** ** Further checks on the opcode table *)

(** The keys of the table literal, in the order of the literal. *)
Definition table_keys : list Z :=
  Eval vm_compute in GLOBAL_INSTRUCTIONS_LITERAL.*1.

(** An entry of the table has either a mnemonic or an extension map, never
    both and never neither; an extension group has an addressing byte; and
    the permitted addressing modes are among 0, 1, 2, 3. *)
Definition entry_shape (p : Z * InstructionInfo) : Prop :=
  (mnemonic p.2 = None <-> is_Some (extension_map p.2))
  /\ (is_Some (extension_map p.2) -> has_modrm p.2 = true)
  /\ addressing_modes p.2 ⊆ [0; 1; 2; 3]
  /\ prefix_map p.2 = None.

#[export] Instance entry_shape_dec (p : Z * InstructionInfo) :
  Decision (entry_shape p).
Proof. unfold entry_shape. apply _. Defined.

(** The mnemonic of a register-embedded family, by the opcode byte. *)
Definition regadd_family (v : Z) : string :=
  if v <? 0x48 then "inc"
  else if v <? 0x50 then "dec"
  else if v <? 0x58 then "push"
  else if v <? 0x60 then "pop"
  else "mov".

(** ** Reading the result of a sweep *)

(** The destination a relative-displacement token carries before the sweep
    labels it. *)
Definition destination (tok : Instruction.t) : option Z :=
  match Instruction.encoding tok, Instruction.immediate tok with
  | Some D, PInt n => Some n
  | _, _ => None
  end.

(** The label the sweep makes for a destination. *)
Definition label_of (dest : Z) : string :=
  label_text (format_0wX 8 dest).

(** The token as the sweep stores it: a relative-displacement token has its
    operand replaced by the label of its destination. *)
Definition relabel (tok : Instruction.t) : Instruction.t :=
  match destination tok with
  | Some n => Instruction.with_immediate (PStr (label_of n)) tok
  | None => tok
  end.

(** The raw bytes the sweep stores for a step. *)
Definition step_bytes (data : list byte) (p : Z * Z) : list byte :=
  py_slice data (Some p.1) (Some (p.1 + p.2)).

(** What a finished sweep state records about the buffer [data]: every
    step is a result of [disassemble] at its offset, stored relabelled with
    the bytes of the step; the output has no other keys; and the steps lie
    before the cursor. *)
Definition output_inv (data : list byte) (st : sweep_state) : Prop :=
  (forall o s, (o, s) ∈ steps st ->
     o < counter st
     /\ exists tok,
          disassemble (py_slice data (Some o) None) o = Ok (tok, s)
          /\ output_list st !! o
             = Some (relabel tok, step_bytes data (o, s)))
  /\ (forall o, is_Some (output_list st !! o) -> o ∈ (steps st).*1).

(** What a sweep state records about labels: a label is the text of its
    key and comes from a step that jumps there, and every such step has its
    label. *)
Definition labels_inv (data : list byte) (st : sweep_state) : Prop :=
  (forall dest l, labels st !! dest = Some l ->
     l = label_of dest
     /\ exists o s tok,
          (o, s) ∈ steps st
          /\ disassemble (py_slice data (Some o) None) o = Ok (tok, s)
          /\ destination tok = Some dest)
  /\ (forall o s tok dest,
        (o, s) ∈ steps st ->
        disassemble (py_slice data (Some o) None) o = Ok (tok, s) ->
        destination tok = Some dest ->
        labels st !! dest = Some (label_of dest)).

(** ** Reading a token against the rendering *)

(** Every attribute [Instruction.__str__] prints for the encoding of the
    token is set, so that no [None] is printed. *)
Definition rendered_fields_set (tok : Instruction.t) : Prop :=
  Instruction.mnemonic tok <> None
  /\ match Instruction.encoding tok with
     | Some M => Instruction.rm tok <> None
     | Some MI =>
         Instruction.rm tok <> None /\ Instruction.immediate tok <> PNone
     | Some MR | Some RM =>
         Instruction.rm tok <> None /\ Instruction.reg tok <> None
     | Some I | Some D => Instruction.immediate tok <> PNone
     | Some O => Instruction.reg tok <> None
     | Some OI | Some FD | Some TD =>
         Instruction.reg tok <> None /\ Instruction.immediate tok <> PNone
     | Some ZO => True
     | None => False
     end.

(** ** The length of an addressing operand *)

(** The scale-index-base fields of the byte after the addressing byte, when
    there is one. *)
Definition sib_of (data : list byte) : Z * Z * Z :=
  match py_index data 1 with
  | Ok d1 => parse_sib (byte_val d1)
  | Raise _ => (1, 0, 0)
  end.

(** The bytes [modrm_disassemble] counts after the addressing byte for the
    operand: a scale-index-base byte and a displacement, by mode and operand
    selector. *)
Definition operand_bytes (mod_ rm_ : Z) (sib : Z * Z * Z) : Z :=
  if mod_ =? 3 then 0
  else if mod_ =? 2 then (if rm_ =? 4 then 5 else 4)
  else if mod_ =? 1 then (if rm_ =? 4 then 2 else 1)
  else if rm_ =? 5 then 4
  else if rm_ =? 4 then
    let '(_, index, base) := sib in
    if index =? 4 then 1 else if base =? 5 then 5 else 1
  else 0.

(** * Properties *)

(** ** Bytes and slices *)

Lemma byte_val_range (b : byte) : 0 <= byte_val b < 256.
Proof.
  unfold byte_val. pose proof (Byte.to_N_bounded b). lia.
Qed.

Lemma py_index_head {A} (x : A) (l : list A) : py_index (x :: l) 0 = Ok x.
Proof.
  unfold py_index. cbn [length].
  replace (0 <? 0) with false by reflexivity. cbn match.
  destruct (Z.leb_spec (Z.of_nat (S (length l))) 0) as [H|H]; [lia|].
  reflexivity.
Qed.

Lemma py_index_nil {A} (i : Z) : py_index (@nil A) i = Raise IndexError.
Proof.
  unfold py_index. cbn [length]. change (Z.of_nat 0) with 0.
  destruct (i <? 0) eqn:E.
  - rewrite Z.add_0_r, E. reflexivity.
  - rewrite E. replace (0 <=? i) with true by lia. reflexivity.
Qed.

Lemma py_index_in_range {A} (l : list A) (i : Z) :
  0 <= i < Z.of_nat (length l) -> exists x, py_index l i = Ok x.
Proof.
  intros H. unfold py_index.
  replace (i <? 0) with false by lia.
  replace (i <? 0) with false by lia.
  replace (Z.of_nat (length l) <=? i) with false by lia. cbn.
  destruct (lookup_lt_is_Some_2 l (Z.to_nat i)) as [x Hx]; [lia|].
  rewrite Hx. eauto.
Qed.

Lemma py_slice_from {A} (l : list A) (c : Z) :
  0 <= c -> py_slice l (Some c) None = drop (Z.to_nat c) l.
Proof.
  intros Hc. unfold py_slice, slice_bound.
  replace (c <? 0) with false by lia.
  destruct (Z.le_gt_cases c (Z.of_nat (length l))) as [H|H].
  - rewrite Z.min_l by lia. apply take_ge. rewrite length_drop. lia.
  - rewrite Z.min_r by lia. rewrite Nat2Z.id, Z.sub_diag.
    rewrite !drop_ge by lia. reflexivity.
Qed.

Lemma py_slice_upto {A} (l : list A) (n : Z) :
  0 <= n -> py_slice l None (Some n) = take (Z.to_nat n) l.
Proof.
  intros Hn. unfold py_slice, slice_bound.
  replace (n <? 0) with false by lia. rewrite Z.sub_0_r.
  change (Z.to_nat 0) with 0%nat. rewrite drop_0.
  destruct (Z.le_gt_cases n (Z.of_nat (length l))) as [H|H].
  - rewrite Z.min_l by lia. reflexivity.
  - rewrite Z.min_r by lia. rewrite Nat2Z.id.
    rewrite (take_ge l (length l)) by lia.
    rewrite (take_ge l (Z.to_nat n)) by lia. reflexivity.
Qed.

Lemma py_slice_range {A} (l : list A) (a b : Z) :
  0 <= a <= b ->
  py_slice l (Some a) (Some b) = take (Z.to_nat (b - a)) (drop (Z.to_nat a) l).
Proof.
  intros H. unfold py_slice, slice_bound.
  replace (a <? 0) with false by lia. replace (b <? 0) with false by lia.
  destruct (Z.le_gt_cases b (Z.of_nat (length l))) as [Hb|Hb].
  - rewrite !Z.min_l by lia. reflexivity.
  - rewrite (Z.min_r b) by lia.
    destruct (Z.le_gt_cases a (Z.of_nat (length l))) as [Ha|Ha].
    + rewrite Z.min_l by lia. rewrite !take_ge; [reflexivity| |];
        rewrite length_drop; lia.
    + rewrite Z.min_r by lia. rewrite Nat2Z.id, !drop_ge by lia.
      rewrite !take_nil. reflexivity.
Qed.

Lemma from_bytes_little_bound (bs : list byte) :
  0 <= from_bytes_little bs < 256 ^ Z.of_nat (length bs).
Proof.
  induction bs as [|b bs IH]; cbn [from_bytes_little length].
  - cbn. lia.
  - rewrite Nat2Z.inj_succ, Z.pow_succ_r by lia.
    pose proof (byte_val_range b). lia.
Qed.

Lemma from_bytes_little_take_bound (bs : list byte) (n : nat) :
  0 <= from_bytes_little (take n bs) < 256 ^ Z.of_nat n.
Proof.
  pose proof (from_bytes_little_bound (take n bs)) as H.
  assert (256 ^ Z.of_nat (length (take n bs)) <= 256 ^ Z.of_nat n).
  { apply Z.pow_le_mono_r; [lia|]. rewrite length_take. lia. }
  lia.
Qed.

(** ** Hexadecimal rendering *)

Lemma hex_fixed_length (w : nat) (n : Z) : length (hex_fixed w n) = w.
Proof.
  revert n. induction w as [|w IH]; intros n; cbn [hex_fixed]; [reflexivity|].
  rewrite length_app, IH. cbn. lia.
Qed.

Lemma digit_char_upper_hex (d : Z) : is_upper_hex (digit_char d) = true.
Proof.
  destruct d as [|p|p]; try reflexivity.
  do 4 (try destruct p as [p|p|]); reflexivity.
Qed.

Lemma hex_fixed_upper_hex (w : nat) (n : Z) :
  forallb is_upper_hex (hex_fixed w n) = true.
Proof.
  revert n. induction w as [|w IH]; intros n; cbn [hex_fixed]; [reflexivity|].
  rewrite forallb_app, IH. cbn [forallb].
  rewrite digit_char_upper_hex. reflexivity.
Qed.

Lemma hex_fixed_zero (w : nat) : hex_fixed w 0 = replicate w "0"%char.
Proof.
  induction w as [|w IH]; [reflexivity|].
  cbn [hex_fixed]. rewrite Zdiv_0_l, IH, replicate_S_end. reflexivity.
Qed.

Lemma digits_pad (w fuel : nat) (n : Z) :
  (1 <= w)%nat -> (1 <= fuel)%nat ->
  0 <= n < 16 ^ Z.of_nat w -> n < 16 ^ Z.of_nat fuel ->
  replicate (w - length (digits 16 fuel n)) "0"%char ++ digits 16 fuel n
  = hex_fixed w n.
Proof.
  revert fuel n. induction w as [|w IH]; intros fuel n Hw Hf Hn Hfuel; [lia|].
  destruct fuel as [|fuel]; [lia|]. cbn [digits hex_fixed].
  destruct (Z.ltb_spec n 16) as [Hlt|Hge].
  - rewrite Z.div_small by lia. rewrite hex_fixed_zero.
    cbn [app length]. replace (S w - 1)%nat with w by lia. reflexivity.
  - rewrite Nat2Z.inj_succ, Z.pow_succ_r in Hn, Hfuel by lia.
    assert (1 <= w)%nat.
    { destruct w; [cbn in Hn; lia | lia]. }
    assert (1 <= fuel)%nat.
    { destruct fuel; [cbn in Hfuel; lia | lia]. }
    rewrite length_app. cbn [length].
    replace (S w - (length (digits 16 fuel (n / 16)) + 1))%nat
      with (w - length (digits 16 fuel (n / 16)))%nat by lia.
    rewrite app_assoc. f_equal. apply IH; try lia.
    + split; [apply Z.div_pos; lia|].
      apply Z.div_lt_upper_bound; lia.
    + apply Z.div_lt_upper_bound; lia.
Qed.

Lemma nat_digits_fuel (n : Z) :
  0 <= n -> n < 16 ^ Z.of_nat (S (Z.to_nat (Z.log2 n))).
Proof.
  intros Hn. rewrite Nat2Z.inj_succ, Z2Nat.id by apply Z.log2_nonneg.
  destruct (Z.eq_dec n 0) as [->|Hne]; [cbn; lia|].
  pose proof (Z.log2_spec n ltac:(lia)) as [_ Hlt].
  pose proof (Z.log2_nonneg n).
  assert (2 ^ Z.succ (Z.log2 n) <= 16 ^ Z.succ (Z.log2 n)).
  { apply Z.pow_le_mono_l. lia. }
  lia.
Qed.

(** Within [0 <= n < 16^w] the format [0wX] gives exactly [w] digits. *)
Lemma format_0wX_fixed (w : nat) (n : Z) :
  (1 <= w)%nat -> 0 <= n < 16 ^ Z.of_nat w ->
  format_0wX w n = String.string_of_list_ascii (hex_fixed w n).
Proof.
  intros Hw Hn. unfold format_0wX, nat_digits.
  replace (n <? 0) with false by lia. cbn [app length].
  rewrite Z.abs_eq by lia. rewrite Nat.sub_0_r.
  f_equal. apply digits_pad; try lia. apply nat_digits_fuel. lia.
Qed.

(** ** The opcode table *)

Lemma table_wf :
  Forall (fun p => record_wf p.1 p.2) GLOBAL_INSTRUCTIONS_LITERAL.
Proof. apply (bool_decide_unpack _). vm_compute. exact Logic.I. Qed.

Lemma record_fields (k : Z) (ii : InstructionInfo) :
  GLOBAL_INSTRUCTIONS_MAP !! k = Some ii -> record_wf k ii.
Proof.
  intros H. apply elem_of_list_to_map_2 in H.
  pose proof table_wf as Hall. rewrite Forall_forall in Hall.
  exact (Hall (k, ii) H).
Qed.

Lemma record_imm_size_nonneg (k : Z) (ii : InstructionInfo) :
  GLOBAL_INSTRUCTIONS_MAP !! k = Some ii -> 0 <= imm_size ii.
Proof.
  intros H. destruct (record_fields _ _ H) as (_ & [Hw|[Hw|Hw]] & _); lia.
Qed.

(** ** Case analysis on decoder results *)

Ltac inner_scrutinee x k :=
  lazymatch x with
  | context [match ?y with _ => _ end] => inner_scrutinee y k
  | _ => k x
  end.

(** Destructs, innermost first, every scrutinee of a [match] or [if] that
    occurs in a hypothesis. *)
Ltac break_match :=
  repeat match goal with
  | H : context [match ?x with _ => _ end] |- _ =>
      inner_scrutinee x
        ltac:(fun y => destruct y eqn:?; cbv beta iota in *; try discriminate)
  end.

Ltac unfold_bind H := unfold mbind, result_bind in H; cbv beta iota in H.

Lemma modrm_disassemble_inv data osz ii tok size :
  0 <= imm_size ii ->
  modrm_disassemble data osz ii = Ok (tok, size) ->
  Instruction.encoding tok = Some (encoding ii)
  /\ Instruction.is_db tok = false
  /\ osz + 1 <= size.
Proof.
  intros Hw H. unfold modrm_disassemble in H. unfold_bind H.
  break_match.
  all: simplify_eq; cbn; repeat split; try reflexivity; try lia.
Qed.

Lemma regadd_disassemble_inv data ii tok size :
  0 <= imm_size ii ->
  regadd_disassemble data ii = Ok (tok, size) ->
  Instruction.encoding tok = Some (encoding ii)
  /\ Instruction.is_db tok = false
  /\ 1 <= size.
Proof.
  intros Hw H. unfold regadd_disassemble in H. unfold_bind H.
  break_match.
  all: simplify_eq; cbn; repeat split; try reflexivity; try lia.
Qed.

Lemma no_modrm_no_regadd_disassemble_inv data osz ii offset tok size :
  0 <= imm_size ii ->
  no_modrm_no_regadd_disassemble data osz ii offset = Ok (tok, size) ->
  Instruction.encoding tok = Some (encoding ii)
  /\ Instruction.is_db tok = false
  /\ osz <= size
  /\ (encoding ii = D -> exists n, Instruction.immediate tok = PInt n).
Proof.
  intros Hw H. unfold no_modrm_no_regadd_disassemble in H.
  cbn [Instruction.encoding] in H.
  destruct (encoding ii) eqn:Henc.
  all: repeat first
         [ rewrite bool_decide_eq_true_2 in H by reflexivity
         | rewrite bool_decide_eq_false_2 in H by discriminate ].
  all: cbn [negb orb] in H; cbv beta iota zeta in H.
  all: cbn [Instruction.encoding Instruction.with_reg] in H.
  all: repeat first
         [ rewrite bool_decide_eq_true_2 in H by reflexivity
         | rewrite bool_decide_eq_false_2 in H by discriminate ].
  all: break_match.
  all: simplify_eq; cbn; repeat split; try reflexivity; try lia;
         try discriminate; eauto.
Qed.

(** ** Record selection *)

Lemma instructions_getitem_regadd :
  instructions_getitem 0x48 = Ok (info_plus 0x48 "dec" false O)
  /\ instructions_getitem 0x40 = Ok (info_plus 0x40 "inc" false O)
  /\ instructions_getitem 0xB8 = Ok (info 0xB8 "mov" false OI)
  /\ instructions_getitem 0x58 = Ok (info 0x58 "pop" false O)
  /\ instructions_getitem 0x50 = Ok (info 0x50 "push" false O).
Proof. repeat split; vm_compute; reflexivity. Qed.

Lemma instructions_getitem_Ok k ii :
  instructions_getitem k = Ok ii -> GLOBAL_INSTRUCTIONS_MAP !! k = Some ii.
Proof.
  unfold instructions_getitem.
  destruct (GLOBAL_INSTRUCTIONS_MAP !! k); congruence.
Qed.

(** [regadd_check_opcode] never raises; a record it returns is the table
    entry of its own base opcode, is register-embedded, and lies at most 7
    below the opcode looked for. *)
Lemma regadd_check_opcode_spec (op : Z) :
  exists r, regadd_check_opcode op = Ok r
    /\ forall ii, r = Some ii ->
         GLOBAL_INSTRUCTIONS_MAP !! opcode ii = Some ii
         /\ (encoding ii = O \/ encoding ii = OI)
         /\ has_modrm ii = false
         /\ 0 <= op - opcode ii < 8.
Proof.
  destruct instructions_getitem_regadd as (H48 & H40 & HB8 & H58 & H50).
  unfold regadd_check_opcode, REGADD_OPCODES, regadd_scan.
  rewrite H48, H40, HB8, H58, H50. unfold mbind, result_bind.
  repeat match goal with
         | |- context [if ?c then _ else _] => destruct c eqn:?
         end.
  all: eexists; split; [reflexivity|]; intros ii Hii; simplify_eq.
  all: cbn [opcode encoding has_modrm info info_plus].
  all: repeat split; try tauto; try lia;
         try (apply instructions_getitem_Ok; assumption).
Qed.

(** On a buffer that is not empty [select_record] never raises, and the
    record it selects is an entry of the table; [opcode_size] is 1 or 2, or
    unbound for a register-embedded record found by the scan. *)
Lemma select_record_cons (b : byte) (rest : list byte) :
  exists sel, select_record (b :: rest) = Ok sel
    /\ forall osz ii, sel = Some (osz, ii) ->
         (exists k, GLOBAL_INSTRUCTIONS_MAP !! k = Some ii)
         /\ (osz = Some 1 \/ osz = Some 2
             \/ (osz = None /\ has_modrm ii = false
                 /\ (encoding ii = O \/ encoding ii = OI))).
Proof.
  unfold select_record. rewrite py_index_head. unfold mbind, result_bind.
  destruct (GLOBAL_INSTRUCTIONS_MAP !! byte_val b) as [ii1|] eqn:H1.
  { eexists; split; [reflexivity|]. intros osz ii [= <- <-]. eauto. }
  destruct (GLOBAL_INSTRUCTIONS_MAP !! from_bytes_big _) as [ii2|] eqn:H2.
  { eexists; split; [reflexivity|]. intros osz ii [= <- <-]. eauto. }
  destruct (regadd_check_opcode_spec (byte_val b)) as (r & -> & Hr).
  destruct r as [ii3|].
  - eexists; split; [reflexivity|]. intros osz ii [= <- <-].
    destruct (Hr ii3 eq_refl) as (Hk & Henc & Hm & _). split; [eauto|].
    right; right. auto.
  - eexists; split; [reflexivity|]. intros osz ii [=].
Qed.

(** ** The dispatch never raises *)

Lemma decode_selected_inv data osz k ii offset tok size :
  GLOBAL_INSTRUCTIONS_MAP !! k = Some ii ->
  (osz = Some 1 \/ osz = Some 2
   \/ (osz = None /\ has_modrm ii = false
       /\ (encoding ii = O \/ encoding ii = OI))) ->
  decode_selected data osz ii offset = Ok (tok, size) ->
  Instruction.encoding tok = Some (encoding ii)
  /\ Instruction.is_db tok = false
  /\ 1 <= size
  /\ (Instruction.encoding tok = Some D ->
      exists n, Instruction.immediate tok = PInt n).
Proof.
  intros Hk Hosz H.
  pose proof (record_imm_size_nonneg _ _ Hk) as Hw.
  destruct (record_fields _ _ Hk) as (_ & _ & _ & Hmod & HD & _ & HO & _).
  unfold decode_selected in H.
  destruct (has_modrm ii) eqn:Hm.
  - assert (exists sz, osz = Some sz /\ 1 <= sz) as (sz & -> & Hsz).
    { destruct Hosz as [->|[->|(_ & ? & _)]]; [eexists; split; eauto; lia..|].
      discriminate. }
    cbn [local mbind result_bind] in H. unfold_bind H.
    apply modrm_disassemble_inv in H as (He & Hdb & Hs); [|assumption].
    repeat split; try assumption; try lia.
    intros HeD. rewrite He in HeD. injection HeD as HeD.
    destruct (HD HeD) as [? _]. discriminate.
  - destruct (bool_decide (encoding ii = O) || bool_decide (encoding ii = OI))
      eqn:HOI.
    + apply regadd_disassemble_inv in H as (He & Hdb & Hs); [|assumption].
      repeat split; try assumption.
      intros HeD. rewrite He in HeD. injection HeD as HeD.
      apply orb_prop in HOI as [HOI|HOI]; apply bool_decide_eq_true_1 in HOI;
        congruence.
    + assert (exists sz, osz = Some sz /\ 1 <= sz) as (sz & -> & Hsz).
      { destruct Hosz as [->|[->|(_ & _ & Henc)]];
          [eexists; split; eauto; lia..|].
        apply orb_false_elim in HOI as [HO1 HO2].
        apply bool_decide_eq_false_1 in HO1, HO2. tauto. }
      cbn [local] in H. unfold_bind H.
      apply no_modrm_no_regadd_disassemble_inv in H
        as (He & Hdb & Hs & Himm); [|assumption].
      repeat split; try assumption; try lia.
      intros HeD. rewrite He in HeD. injection HeD as HeD. auto.
Qed.

(** On a buffer that is not empty [disassemble] returns a token and a size
    of at least 1; a relative-displacement token carries an integer. *)
Lemma disassemble_cons (b : byte) (rest : list byte) (offset : Z) :
  exists tok size,
    disassemble (b :: rest) offset = Ok (tok, size)
    /\ 1 <= size
    /\ (Instruction.encoding tok = Some D ->
        exists n, Instruction.immediate tok = PInt n).
Proof.
  unfold disassemble.
  destruct (select_record_cons b rest) as (sel & -> & Hsel).
  unfold mbind, result_bind. rewrite py_index_head.
  destruct sel as [[osz ii]|].
  - destruct (Hsel osz ii eq_refl) as ((k & Hk) & Hosz).
    destruct (decode_selected (b :: rest) osz ii offset) as [[tok size]|e]
      eqn:Hdec.
    + exists tok, size. split; [reflexivity|].
      apply (decode_selected_inv _ _ _ _ _ _ _ Hk Hosz) in Hdec. tauto.
    + do 2 eexists. split; [reflexivity|]. split; [lia|]. discriminate.
  - do 2 eexists. split; [reflexivity|]. split; [lia|]. discriminate.
Qed.

(** ** The sweep *)

Lemma steps_chain_sum (l : list (Z * Z)) (stop : Z) :
  steps_chain l stop -> sum_sizes l = stop.
Proof.
  revert stop. induction l as [|[o s] l IH]; intros stop H.
  - cbn in *. congruence.
  - destruct H as [-> H]. unfold sum_sizes in *. cbn [foldr snd].
    rewrite (IH _ H). lia.
Qed.

Lemma suffix_nonempty (data : list byte) (c : Z) :
  0 <= c < Z.of_nat (length data) ->
  exists b rest, py_slice data (Some c) None = b :: rest.
Proof.
  intros H. rewrite py_slice_from by lia.
  destruct (drop (Z.to_nat c) data) as [|b rest] eqn:E; [|eauto].
  apply (f_equal length) in E. rewrite length_drop in E. cbn in E. lia.
Qed.

(** One iteration inside the buffer never raises and moves the cursor
    forward by the size [disassemble] reports. *)
Lemma sweep_body_ok (data : list byte) (st : sweep_state) :
  0 <= counter st < Z.of_nat (length data) ->
  exists st' tok size,
    disassemble (py_slice data (Some (counter st)) None) (counter st)
      = Ok (tok, size)
    /\ sweep_body data st = Ok st'
    /\ 1 <= size
    /\ counter st' = counter st + size
    /\ steps st' = (counter st, size) :: steps st.
Proof.
  intros Hc. destruct (suffix_nonempty data _ Hc) as (b & rest & Hs).
  destruct (disassemble_cons b rest (counter st))
    as (tok & size & Hd & Hsize & Himm).
  unfold sweep_body. rewrite Hs, Hd. unfold mbind, result_bind.
  cbv beta iota.
  destruct (bool_decide (Instruction.encoding tok = Some D)) eqn:HD.
  - apply bool_decide_eq_true_1 in HD. destruct (Himm HD) as (n & Hn).
    rewrite Hn. cbn [fmt_val_0wX].
    eexists _, tok, size. repeat split; try reflexivity; assumption.
  - eexists _, tok, size. repeat split; try reflexivity; assumption.
Qed.

Lemma sweep_body_inv (data : list byte) (st st' : sweep_state) :
  sweep_inv data st ->
  counter st < Z.of_nat (length data) ->
  sweep_body data st = Ok st' ->
  sweep_inv data st' /\ counter st < counter st'.
Proof.
  intros (H0 & Hch & Hin) Hlt Hb.
  destruct (sweep_body_ok data st ltac:(lia))
    as (st2 & tok & size & _ & Hb2 & Hsize & Hc & Hsteps).
  rewrite Hb in Hb2. injection Hb2 as <-.
  split; [|lia]. unfold sweep_inv. rewrite Hsteps, Hc.
  split; [lia|]. split.
  - cbn. split; [reflexivity | assumption].
  - apply Forall_cons. split; [cbn; lia | assumption].
Qed.

(** With at least as much fuel as bytes left, the loop ends normally, at a
    cursor that reached or passed the end of the buffer. *)
Lemma sweep_loop_run (fuel : nat) (data : list byte) (st : sweep_state) :
  sweep_inv data st ->
  Z.of_nat (length data) - counter st <= Z.of_nat fuel ->
  exists st', sweep_loop fuel data st = Some (Ok st')
    /\ sweep_inv data st'
    /\ Z.of_nat (length data) <= counter st'.
Proof.
  revert st. induction fuel as [|fuel IH]; intros st Hinv Hfuel.
  - cbn [sweep_loop].
    destruct (Z.ltb_spec (counter st) (Z.of_nat (length data))); [lia|].
    exists st. auto.
  - cbn [sweep_loop].
    destruct (Z.ltb_spec (counter st) (Z.of_nat (length data))) as [Hlt|Hge].
    + destruct Hinv as (H0 & Hrest).
      destruct (sweep_body_ok data st ltac:(lia))
        as (st2 & tok & size & _ & Hb & Hsize & Hc & _).
      rewrite Hb.
      destruct (sweep_body_inv data st st2 (conj H0 Hrest) Hlt Hb) as [Hi _].
      apply IH; [assumption | lia].
    + exists st. auto.
Qed.

Lemma sweep_init_inv (data : list byte) : sweep_inv data sweep_init.
Proof.
  unfold sweep_inv, sweep_init. cbn. repeat split; try lia. constructor.
Qed.

Lemma sweep_from_start (data : list byte) (k : nat) :
  exists st, sweep_loop (length data + k) data sweep_init = Some (Ok st)
    /\ sweep_inv data st
    /\ Z.of_nat (length data) <= counter st.
Proof.
  apply sweep_loop_run; [apply sweep_init_inv|].
  cbn [counter sweep_init]. lia.
Qed.

(** * The claims *)

(** ** C1 *)

(** C1.  On every buffer that is not empty [disassemble] returns a token and
    a size and raises nothing.  Whenever the decoder chosen for the selected
    record raises, whatever the exception, the result is the placeholder
    token of the first byte with size 1, and that token renders as [db 0x]
    followed by exactly two uppercase hexadecimal digits of the byte. *)
Theorem C1_dispatch_catches_every_fault (b : byte) (rest : list byte)
    (offset : Z) :
  (exists tok size, disassemble (b :: rest) offset = Ok (tok, size))
  /\ (forall osz ii e,
        select_record (b :: rest) = Ok (Some (osz, ii)) ->
        decode_selected (b :: rest) osz ii offset = Raise e ->
        disassemble (b :: rest) offset
          = Ok (Instruction.db (byte_val b), 1))
  /\ Instruction_str (Instruction.db (byte_val b))
       = Ok ("db 0x" +:+ String.string_of_list_ascii
                           (hex_fixed 2 (byte_val b)))
  /\ length (hex_fixed 2 (byte_val b)) = 2%nat
  /\ forallb is_upper_hex (hex_fixed 2 (byte_val b)) = true.
Proof.
  split; [|split; [|split; [|split]]].
  - destruct (disassemble_cons b rest offset) as (tok & size & H & _).
    eauto.
  - intros osz ii e Hsel Hdec. unfold disassemble.
    rewrite Hsel. unfold mbind, result_bind. rewrite Hdec, py_index_head.
    reflexivity.
  - unfold Instruction_str. cbn [Instruction.is_db Instruction.db
      Instruction.immediate fmt_val_0wX mbind result_bind].
    unfold mbind, result_bind.
    rewrite format_0wX_fixed; [reflexivity | lia |].
    pose proof (byte_val_range b). change (16 ^ Z.of_nat 2) with 256. lia.
  - apply hex_fixed_length.
  - apply hex_fixed_upper_hex.
Qed.

(** An invalid opcode extension ([FF D8]), an invalid addressing mode
    ([8D C0]) and a missing addressing byte ([89] alone) all end in the
    placeholder. *)
Lemma C1_witness :
  disassemble [Byte.xff; Byte.xd8] 0 = Ok (Instruction.db 0xFF, 1)
  /\ disassemble [Byte.x8d; Byte.xc0] 7 = Ok (Instruction.db 0x8D, 1)
  /\ disassemble [Byte.x89] 0 = Ok (Instruction.db 0x89, 1).
Proof.
  split; [|split].
  - apply (proj1 (proj2 (C1_dispatch_catches_every_fault
                           Byte.xff [Byte.xd8] 0))
             (Some 1) (info_ext 0xFF M
               [(0, "inc"); (1, "dec"); (2, "call"); (4, "jmp");
                (6, "push")]%string [0; 1; 2; 3])
             (Exception "INVALID OPCODE EXTENSION 3 FOR OPCODE FF"));
      vm_compute; reflexivity.
  - apply (proj1 (proj2 (C1_dispatch_catches_every_fault
                           Byte.x8d [Byte.xc0] 7))
             (Some 1)
             (mkInfo 0x8D (Some "lea"%string) true RM None [0; 1; 2] false
                None 4)
             (Exception "INVALID ADDRESSING MODE 3 FOR OPCODE 8D"));
      vm_compute; reflexivity.
  - apply (proj1 (proj2 (C1_dispatch_catches_every_fault Byte.x89 [] 0))
             (Some 1) (info 0x89 "mov" true MR) IndexError);
      vm_compute; reflexivity.
Defined.

(** ** C2 *)

(** C2, as stated, fails on the one-byte buffer [E8]: the only step reports
    5 consumed bytes. *)
Lemma C2_counterexample :
  exists st,
    sweep_loop 1 [Byte.xe8] sweep_init = Some (Ok st)
    /\ steps st = [(0, 5)]
    /\ sum_sizes (steps st) <> Z.of_nat (length [Byte.xe8]).
Proof.
  eexists. split; [vm_compute; reflexivity|].
  split; [reflexivity|]. vm_compute. discriminate.
Qed.

(** C2, amended.  For every buffer the sweep ends; its steps tile the range
    from 0 to the final cursor (each starts where the one before ended, so
    no byte is decoded twice and none is skipped); every step starts inside
    the buffer; and the sum of the consumed sizes is the final cursor, which
    is at least the buffer length. *)
Theorem C2_sizes_sum_to_final_cursor (data : list byte) (k : nat) :
  exists st,
    sweep_loop (length data + k) data sweep_init = Some (Ok st)
    /\ steps_chain (steps st) (counter st)
    /\ steps_inside (Z.of_nat (length data)) (steps st)
    /\ sum_sizes (steps st) = counter st
    /\ Z.of_nat (length data) <= counter st.
Proof.
  destruct (sweep_from_start data k) as (st & Hrun & (H0 & Hch & Hin) & Hend).
  exists st. repeat split; try assumption.
  apply steps_chain_sum. assumption.
Qed.

(** ** C3 *)

(** C3.  Every decode step on a buffer that is not empty returns a size of
    at least 1; an iteration of the sweep that starts inside the buffer
    strictly advances the cursor; and the sweep of any buffer ends, with at
    most one iteration per byte, at a cursor that reached or passed the
    buffer length. *)
Theorem C3_sweep_terminates (data : list byte) :
  (forall b rest offset, exists tok size,
      disassemble (b :: rest) offset = Ok (tok, size) /\ 1 <= size)
  /\ (forall st, 0 <= counter st < Z.of_nat (length data) ->
        exists st', sweep_body data st = Ok st'
                    /\ counter st < counter st')
  /\ (forall k, exists st,
        sweep_loop (length data + k) data sweep_init = Some (Ok st)
        /\ Z.of_nat (length data) <= counter st)
  /\ exists out, linnear_sweep data = Some (Ok out).
Proof.
  split; [|split; [|split]].
  - intros b rest offset.
    destruct (disassemble_cons b rest offset) as (tok & size & H & Hs & _).
    eauto.
  - intros st Hc.
    destruct (sweep_body_ok data st Hc)
      as (st' & tok & size & _ & Hb & Hs & Hcount & _).
    exists st'. split; [assumption | lia].
  - intros k. destruct (sweep_from_start data k) as (st & Hrun & _ & Hend).
    eauto.
  - destruct (sweep_from_start data 0) as (st & Hrun & _).
    rewrite Nat.add_0_r in Hrun. unfold linnear_sweep. rewrite Hrun. eauto.
Qed.

(** The second part at the buffer [E8 05 00 00 00 90], from the start. *)
Lemma C3_witness :
  exists st',
    sweep_body [Byte.xe8; Byte.x05; Byte.x00; Byte.x00; Byte.x00; Byte.x90]
      sweep_init = Ok st'
    /\ counter sweep_init < counter st'.
Proof.
  apply (proj1 (proj2 (C3_sweep_terminates
           [Byte.xe8; Byte.x05; Byte.x00; Byte.x00; Byte.x00; Byte.x90]))).
  cbn. lia.
Defined.

(** ** C4 *)

Lemma select_record_nil : select_record [] = Raise IndexError.
Proof. unfold select_record. rewrite py_index_nil. reflexivity. Qed.

Lemma no_modrm_relative data osz ii offset :
  encoding ii = D ->
  no_modrm_no_regadd_disassemble data osz ii offset
  = Ok (Instruction.mk (mnemonic ii) (Some D)
          (PInt (from_bytes_little_signed
                   (py_slice data None (Some (imm_size ii)))
                 + (offset + (osz + imm_size ii))))
          None None None None None false,
        osz + imm_size ii).
Proof.
  intros HD. unfold no_modrm_no_regadd_disassemble. rewrite HD.
  cbn [Instruction.encoding].
  repeat first
    [ rewrite bool_decide_eq_true_2 by reflexivity
    | rewrite bool_decide_eq_false_2 by discriminate ].
  cbn [negb orb]. cbv beta iota zeta. cbn [Instruction.encoding].
  repeat first
    [ rewrite bool_decide_eq_true_2 by reflexivity
    | rewrite bool_decide_eq_false_2 by discriminate ].
  destruct (imm_size ii =? 4); reflexivity.
Qed.

(** A relative-displacement token comes from a record of encoding [D]
    selected with a bound [opcode_size]; its operand is the offset plus the
    size plus the signed immediate. *)
Lemma disassemble_relative_inv buf offset tok size :
  disassemble buf offset = Ok (tok, size) ->
  Instruction.encoding tok = Some D ->
  exists osz ii,
    select_record buf = Ok (Some (Some osz, ii))
    /\ encoding ii = D
    /\ (imm_size ii = 4 \/ imm_size ii = 1)
    /\ size = osz + imm_size ii
    /\ Instruction.immediate tok
       = PInt (offset + size
               + from_bytes_little_signed
                   (py_slice (py_slice buf (Some osz) None) None
                      (Some (imm_size ii)))).
Proof.
  intros H HD. destruct buf as [|b rest].
  { unfold disassemble in H. rewrite select_record_nil in H. discriminate. }
  unfold disassemble in H.
  destruct (select_record_cons b rest) as (sel & Hsel & Hfacts).
  rewrite Hsel in H. unfold mbind, result_bind in H.
  rewrite py_index_head in H.
  destruct sel as [[osz ii]|]; [|injection H as <- <-; discriminate].
  destruct (Hfacts osz ii eq_refl) as ((k & Hk) & Hosz).
  destruct (decode_selected (b :: rest) osz ii offset) as [[tok' size']|e]
    eqn:Hdec; [|injection H as <- <-; discriminate].
  injection H as -> ->.
  pose proof (decode_selected_inv _ _ _ _ _ _ _ Hk Hosz Hdec)
    as (He & _ & _ & _).
  rewrite He in HD. injection HD as HD.
  destruct (record_fields _ _ Hk) as (_ & _ & _ & _ & HfD & _).
  destruct (HfD HD) as [Hm Hw].
  assert (exists sz, osz = Some sz) as (sz & ->).
  { destruct Hosz as [->|[->|(_ & _ & [?|?])]]; eauto; congruence. }
  unfold decode_selected in Hdec. rewrite Hm in Hdec. rewrite HD in Hdec.
  rewrite !bool_decide_eq_false_2 in Hdec by discriminate.
  cbn [orb local] in Hdec. unfold mbind, result_bind in Hdec.
  rewrite no_modrm_relative in Hdec by assumption.
  injection Hdec as <- <-.
  exists sz, ii. split; [exact Hsel|]. split; [assumption|].
  split; [tauto|]. split; [reflexivity|].
  cbn [Instruction.immediate]. f_equal. lia.
Qed.

(** C4, as stated, fails on the buffer [EB 80]: the destination is
    [0 + 2 - 128 = -126] and the label recorded under it is
    [offset_-000007Eh], a minus sign and seven digits. *)
Lemma C4_counterexample :
  exists st',
    sweep_body [Byte.xeb; Byte.x80] sweep_init = Ok st'
    /\ labels st' !! (-126) = Some "offset_-000007Eh"%string
    /\ "offset_-000007Eh"%string
       <> label_text (String.string_of_list_ascii (hex_fixed 8 (-126)))
    /\ forallb is_upper_hex (String.list_ascii_of_string "-000007E") = false.
Proof.
  eexists. split; [vm_compute; reflexivity|].
  split; [vm_compute; reflexivity|].
  split; [vm_compute; discriminate | vm_compute; reflexivity].
Qed.

(** C4, amended.  A relative-displacement token decoded at offset [o] with
    consumed size [s] stores [o + s + d], where [d] is the signed
    little-endian immediate of the width (4 or 1) the record declares.
    When that destination lies in [0, 2^32) the sweep replaces the operand
    by the label [offset_], eight uppercase hexadecimal digits of the
    destination, [h], and records the label under the destination. *)
Theorem C4_relative_target_label (data : list byte) (st : sweep_state)
    (tok : Instruction.t) (size : Z) :
  disassemble (py_slice data (Some (counter st)) None) (counter st)
    = Ok (tok, size) ->
  Instruction.encoding tok = Some D ->
  exists osz ii d,
    select_record (py_slice data (Some (counter st)) None)
      = Ok (Some (Some osz, ii))
    /\ encoding ii = D
    /\ (imm_size ii = 4 \/ imm_size ii = 1)
    /\ size = osz + imm_size ii
    /\ d = from_bytes_little_signed
             (py_slice (py_slice (py_slice data (Some (counter st)) None)
                          (Some osz) None)
                None (Some (imm_size ii)))
    /\ Instruction.immediate tok = PInt (counter st + size + d)
    /\ (0 <= counter st + size + d < 2 ^ 32 ->
        let dest := counter st + size + d in
        let label :=
          label_text (String.string_of_list_ascii (hex_fixed 8 dest)) in
        exists st',
          sweep_body data st = Ok st'
          /\ labels st' = <[dest := label]> (labels st)
          /\ labels st' !! dest = Some label
          /\ output_list st' !! counter st
             = Some (Instruction.with_immediate (PStr label) tok,
                     py_slice data (Some (counter st))
                       (Some (counter st + size)))).
Proof.
  intros Hd HD.
  destruct (disassemble_relative_inv _ _ _ _ Hd HD)
    as (osz & ii & Hsel & Henc & Hw & Hsize & Himm).
  exists osz, ii. eexists. split; [exact Hsel|]. split; [exact Henc|].
  split; [exact Hw|]. split; [exact Hsize|]. split; [reflexivity|].
  split; [exact Himm|].
  intros Hrange dest label.
  unfold sweep_body. rewrite Hd. unfold mbind, result_bind. cbv beta iota.
  rewrite bool_decide_eq_true_2 by assumption.
  rewrite Himm. cbn [fmt_val_0wX].
  rewrite format_0wX_fixed by (change (16 ^ Z.of_nat 8) with (2 ^ 32); lia).
  eexists. split; [reflexivity|]. cbn [labels output_list].
  split; [reflexivity|].
  split; [apply lookup_insert_eq|]. apply lookup_insert_eq.
Qed.

(** The call of the spec's example: [E8 05 00 00 00] at offset 16 goes to
    26 and gets the label [offset_0000001Ah]. *)
Lemma C4_witness :
  let data := replicate 16 Byte.x90
              ++ [Byte.xe8; Byte.x05; Byte.x00; Byte.x00; Byte.x00] in
  let st := mkSweep 16 ∅ ∅ [] in
  exists osz ii d,
    select_record (py_slice data (Some (counter st)) None)
      = Ok (Some (Some osz, ii))
    /\ encoding ii = D
    /\ (imm_size ii = 4 \/ imm_size ii = 1)
    /\ 5 = osz + imm_size ii
    /\ d = from_bytes_little_signed
             (py_slice (py_slice (py_slice data (Some (counter st)) None)
                          (Some osz) None)
                None (Some (imm_size ii)))
    /\ PInt 26 = PInt (counter st + 5 + d)
    /\ (0 <= counter st + 5 + d < 2 ^ 32 ->
        let dest := counter st + 5 + d in
        let label :=
          label_text (String.string_of_list_ascii (hex_fixed 8 dest)) in
        exists st',
          sweep_body data st = Ok st'
          /\ labels st' = <[dest := label]> (labels st)
          /\ labels st' !! dest = Some label
          /\ output_list st' !! counter st
             = Some (Instruction.with_immediate (PStr label)
                       (Instruction.mk (Some "call"%string) (Some D)
                          (PInt 26) None None None None None false),
                     py_slice data (Some (counter st))
                       (Some (counter st + 5)))).
Proof.
  intros data st.
  apply (C4_relative_target_label data st
           (Instruction.mk (Some "call"%string) (Some D) (PInt 26) None None
              None None None false) 5).
  - vm_compute. reflexivity.
  - reflexivity.
Defined.

(** ** C5 *)

Lemma lookup_A1 :
  GLOBAL_INSTRUCTIONS_MAP !! 0xA1 = Some (info 0xA1 "mov" false FD).
Proof. vm_compute. reflexivity. Qed.

Lemma lookup_A3 :
  GLOBAL_INSTRUCTIONS_MAP !! 0xA3 = Some (info 0xA3 "mov" false TD).
Proof. vm_compute. reflexivity. Qed.

Lemma py_slice_tail {A} (x : A) (l : list A) :
  py_slice (x :: l) (Some 1) None = l.
Proof. rewrite py_slice_from by lia. reflexivity. Qed.

(** Steps [disassemble] on a buffer whose first byte [b] is the one-byte
    key [key] of the table, [lem] being the lookup of that key. *)
Ltac dispatch_on b key lem :=
  unfold disassemble, select_record; rewrite py_index_head;
  unfold mbind, result_bind; cbv beta iota;
  change (byte_val b) with key; rewrite lem;
  unfold decode_selected; cbv beta iota.

(** What the code does with the fixed-accumulator opcodes: the 4-byte
    immediate is read signed and the offset of the following instruction
    is added to it, as for a relative displacement. *)
Lemma fixed_accumulator_decode (rest : list byte) (offset : Z) :
  disassemble (Byte.xa1 :: rest) offset
  = Ok (Instruction.mk (Some "mov"%string) (Some FD)
          (PInt (from_bytes_little_signed (py_slice rest None (Some 4))
                 + (offset + 5)))
          (Some "eax"%string) None None None None false, 5)
  /\ disassemble (Byte.xa3 :: rest) offset
     = Ok (Instruction.mk (Some "mov"%string) (Some TD)
             (PInt (from_bytes_little_signed (py_slice rest None (Some 4))
                    + (offset + 5)))
             (Some "eax"%string) None None None None false, 5).
Proof.
  split.
  - dispatch_on Byte.xa1 0xA1 lookup_A1.
    cbn [has_modrm encoding info local]. unfold mbind, result_bind.
    rewrite !bool_decide_eq_false_2 by discriminate. cbn [orb].
    rewrite py_slice_tail. reflexivity.
  - dispatch_on Byte.xa3 0xA3 lookup_A3.
    cbn [has_modrm encoding info local]. unfold mbind, result_bind.
    rewrite !bool_decide_eq_false_2 by discriminate. cbn [orb].
    rewrite py_slice_tail. reflexivity.
Qed.

(** C5 at the failing input.  The bytes [A1 10 00 00 00] at offset 0 hold
    the absolute memory offset [0x10]; the token stores 21, which is
    [0x10 + 0 + 5], and renders as [mov eax, 21]; 5 bytes are consumed.
    The same bytes at offset 0x100 store 277. *)
Theorem C5_fixed_accumulator_offset_added :
  let bytes := [Byte.xa1; Byte.x10; Byte.x00; Byte.x00; Byte.x00] in
  from_bytes_little (py_slice bytes (Some 1) (Some 5)) = 0x10
  /\ (exists tok,
        disassemble bytes 0 = Ok (tok, 5)
        /\ Instruction.reg tok = Some "eax"%string
        /\ Instruction.immediate tok = PInt 21
        /\ Instruction_str tok = Ok "mov eax, 21"%string)
  /\ (exists tok,
        disassemble bytes 0x100 = Ok (tok, 5)
        /\ Instruction.immediate tok = PInt 277)
  /\ (exists tok,
        disassemble [Byte.xa3; Byte.x10; Byte.x00; Byte.x00; Byte.x00] 0
          = Ok (tok, 5)
        /\ Instruction.immediate tok = PInt 21
        /\ Instruction_str tok = Ok "mov 21, eax"%string).
Proof.
  intros bytes. split; [vm_compute; reflexivity|].
  split; [|split]; eexists; repeat split; vm_compute; reflexivity.
Qed.

(** ** C6 *)

Lemma lookup_FF :
  GLOBAL_INSTRUCTIONS_MAP !! 0xFF
  = Some (info_ext 0xFF M
            [(0, "inc"); (1, "dec"); (2, "call"); (4, "jmp"); (6, "push")]
            [0; 1; 2; 3])%string.
Proof. vm_compute. reflexivity. Qed.

(** [modrm_get_mnemonic] on a record whose extension map is absent or not
    empty. *)
Lemma modrm_get_mnemonic_cases (reg : Z) (ii : InstructionInfo) :
  extension_map ii <> Some ∅ ->
  modrm_get_mnemonic reg ii
  = match extension_map ii with
    | Some m =>
        match m !! reg with
        | Some mn => Ok (Some mn)
        | None => Raise (Exception (invalid_extension_msg reg ii))
        end
    | None => Ok (mnemonic ii)
    end.
Proof.
  intros Hne. unfold modrm_get_mnemonic, extension_map_truthy,
    in_extension_map.
  destruct (extension_map ii) as [m|]; [|reflexivity].
  rewrite bool_decide_eq_false_2 by congruence. cbn [negb andb].
  destruct (m !! reg) as [mn|] eqn:Hm.
  - rewrite bool_decide_eq_true_2 by eauto. cbn. rewrite Hm. reflexivity.
  - rewrite bool_decide_eq_false_2 by (intros [? ?]; discriminate).
    reflexivity.
Qed.

(** C6.  For a record of the table: with an extension map, a mapped
    selector gives the mapped mnemonic and an unmapped one raises the
    invalid-opcode-extension fault; without one, the record's mnemonic is
    returned.  For opcode [FF], selector 0 gives [inc] and selector 3
    raises; and any buffer that starts with [FF] and an addressing byte of
    selector 3 decodes to the placeholder [db 0xFF] of size 1. *)
Theorem C6_opcode_extension (k : Z) (ii : InstructionInfo) (reg : Z) :
  GLOBAL_INSTRUCTIONS_MAP !! k = Some ii ->
  modrm_get_mnemonic reg ii
  = match extension_map ii with
    | Some m =>
        match m !! reg with
        | Some mn => Ok (Some mn)
        | None => Raise (Exception (invalid_extension_msg reg ii))
        end
    | None => Ok (mnemonic ii)
    end
  /\ (forall ffrec, GLOBAL_INSTRUCTIONS_MAP !! 0xFF = Some ffrec ->
        modrm_get_mnemonic 0 ffrec = Ok (Some "inc"%string)
        /\ modrm_get_mnemonic 3 ffrec
           = Raise (Exception
                      "INVALID OPCODE EXTENSION 3 FOR OPCODE FF"%string)
        /\ forall (m : byte) (rest : list byte) (offset : Z),
             (parse_modrm (byte_val m)).1.2 = 3 ->
             disassemble (Byte.xff :: m :: rest) offset
               = Ok (Instruction.db 0xFF, 1)
             /\ Instruction_str (Instruction.db 0xFF)
                = Ok "db 0xFF"%string).
Proof.
  intros Hk. split.
  - apply modrm_get_mnemonic_cases.
    destruct (record_fields _ _ Hk) as (_ & _ & Hne & _). exact Hne.
  - intros ffrec Hff. rewrite lookup_FF in Hff. injection Hff as <-.
    split; [vm_compute; reflexivity|]. split; [vm_compute; reflexivity|].
    intros m rest offset Hreg. split; [|vm_compute; reflexivity].
    dispatch_on Byte.xff 0xFF lookup_FF.
    cbn [has_modrm info_ext local]. unfold mbind, result_bind.
    rewrite py_slice_tail. unfold modrm_disassemble.
    rewrite !py_index_head. unfold mbind, result_bind.
    destruct (parse_modrm (byte_val m)) as [[mod_ r] rm_] eqn:Hp.
    cbn [fst snd] in Hreg. subst r.
    replace (modrm_get_mnemonic 3 _) with
      (@Raise (option string)
         (Exception "INVALID OPCODE EXTENSION 3 FOR OPCODE FF"))
      by (vm_compute; reflexivity).
    reflexivity.
Qed.

(** The record of [8B] has no extension map; [FF D8] has selector 3. *)
Lemma C6_witness :
  modrm_get_mnemonic 5 (info 0x8B "mov" true RM) = Ok (Some "mov"%string)
  /\ disassemble [Byte.xff; Byte.xd8] 0 = Ok (Instruction.db 0xFF, 1).
Proof.
  pose proof (C6_opcode_extension 0x8B (info 0x8B "mov" true RM) 5) as H.
  destruct H as [H1 H2]; [vm_compute; reflexivity|].
  split; [exact H1|].
  destruct (H2 _ lookup_FF) as (_ & _ & H3).
  apply (H3 Byte.xd8 [] 0). vm_compute. reflexivity.
Defined.

(** ** C8 *)

Lemma from_bytes_little_slice_bound (data : list byte) (n : Z) :
  0 <= n ->
  0 <= from_bytes_little (py_slice data None (Some n))
    < 256 ^ n.
Proof.
  intros Hn. rewrite py_slice_upto by lia.
  pose proof (from_bytes_little_take_bound data (Z.to_nat n)) as H.
  rewrite Z2Nat.id in H by lia. exact H.
Qed.

(** C8.  For a record of encoding [I] the decoder without addressing byte
    renders the immediate by the declared width: width 4 as [0x] and eight
    uppercase hexadecimal digits of the unsigned value, width 2 as [0x] and
    four such digits, any other width as the decimal text of the signed
    value.  [6A 05] renders as [push 5] and [68 05 00 00 00] as
    [push 0x00000005]. *)
Theorem C8_immediate_only_rendering (data : list byte) (osz : Z)
    (ii : InstructionInfo) (offset : Z) :
  encoding ii = I ->
  let bs := py_slice data None (Some (imm_size ii)) in
  no_modrm_no_regadd_disassemble data osz ii offset
  = Ok (Instruction.mk (mnemonic ii) (Some I)
          (PStr
             (if imm_size ii =? 4 then
                "0x" +:+ String.string_of_list_ascii
                           (hex_fixed 8 (from_bytes_little bs))
              else if imm_size ii =? 2 then
                "0x" +:+ String.string_of_list_ascii
                           (hex_fixed 4 (from_bytes_little bs))
              else str_int (from_bytes_little_signed bs)))
          None None None None None false,
        osz + imm_size ii)
  /\ (exists tok,
        disassemble [Byte.x6a; Byte.x05] offset = Ok (tok, 2)
        /\ Instruction_str tok = Ok "push 5"%string)
  /\ (exists tok,
        disassemble [Byte.x68; Byte.x05; Byte.x00; Byte.x00; Byte.x00] offset
          = Ok (tok, 5)
        /\ Instruction_str tok = Ok "push 0x00000005"%string).
Proof.
  intros HI bs. split; [|split].
  - unfold no_modrm_no_regadd_disassemble. rewrite HI.
    cbn [Instruction.encoding].
    repeat first
      [ rewrite bool_decide_eq_true_2 by reflexivity
      | rewrite bool_decide_eq_false_2 by discriminate ].
    cbn [negb orb]. cbv beta iota zeta. cbn [Instruction.encoding].
    repeat first
      [ rewrite bool_decide_eq_true_2 by reflexivity
      | rewrite bool_decide_eq_false_2 by discriminate ].
    fold bs.
    destruct (Z.eqb_spec (imm_size ii) 4) as [H4|H4].
    + rewrite format_0wX_fixed; [reflexivity | lia |].
      subst bs. rewrite H4.
      pose proof (from_bytes_little_slice_bound data 4 ltac:(lia)) as H.
      change (16 ^ Z.of_nat 8) with (256 ^ 4). exact H.
    + destruct (Z.eqb_spec (imm_size ii) 2) as [H2|H2]; [|reflexivity].
      rewrite format_0wX_fixed; [reflexivity | lia |].
      subst bs. rewrite H2.
      pose proof (from_bytes_little_slice_bound data 2 ltac:(lia)) as H.
      change (16 ^ Z.of_nat 4) with (256 ^ 2). exact H.
  - eexists. split; vm_compute; reflexivity.
  - eexists. split; vm_compute; reflexivity.
Qed.

(** The record of [CA] ([retf] with a 2-byte immediate) on [10 00]. *)
Lemma C8_witness :
  no_modrm_no_regadd_disassemble [Byte.x10; Byte.x00] 1
    (info_imm 0xCA "retf" false I 2) 0
  = Ok (Instruction.mk (Some "retf"%string) (Some I) (PStr "0x0010")
          None None None None None false, 3).
Proof.
  exact (proj1 (C8_immediate_only_rendering [Byte.x10; Byte.x00] 1
                  (info_imm 0xCA "retf" false I 2) 0 eq_refl)).
Defined.

(** ** C9 *)

Lemma lookup_50 :
  GLOBAL_INSTRUCTIONS_MAP !! 0x50 = Some (info 0x50 "push" false O).
Proof. vm_compute. reflexivity. Qed.

(** C9 at the failing input.  On the buffer [00 50] the first byte is no
    key of the table, but the two bytes read big-endian give [0x50], the
    key of [push]; the record is selected with [opcode_size] 2, the
    register-embedded decoder computes the index [0x00 - 0x50 = -80],
    which is outside [0, 8), and the subscript raises; the dispatch turns
    that into [db 0x00]. *)
Theorem C9_index_out_of_range_after_zero_byte :
  let data := [Byte.x00; Byte.x50] in
  let push := info 0x50 "push" false O in
  select_record data = Ok (Some (Some 2, push))
  /\ regadd_index (byte_val Byte.x00) push = -80
  /\ regadd_disassemble data push = Raise IndexError
  /\ disassemble data 0 = Ok (Instruction.db 0, 1).
Proof.
  intros data push. repeat split; vm_compute; reflexivity.
Qed.

(** ** C10 *)



(** ** C7 *)

Lemma to_signed_range (b : byte) : -128 <= to_signed (byte_val b) <= 127.
Proof.
  unfold to_signed. pose proof (byte_val_range b).
  destruct (Z.leb_spec 128 (byte_val b)); lia.
Qed.

Lemma disp8_text_cases (b : byte) :
  let d := to_signed (byte_val b) in
  disp8_text d
  = if d =? 0 then ""
    else if 0 <? d
         then " + 0x" +:+ String.string_of_list_ascii (hex_fixed 2 d)
         else " - 0x" +:+ String.string_of_list_ascii (hex_fixed 2 (- d)).
Proof.
  intros d. pose proof (to_signed_range b) as Hr. fold d in Hr.
  unfold disp8_text. destruct (d =? 0); [reflexivity|].
  rewrite format_0wX_fixed
    by (try change (16 ^ Z.of_nat 2) with 256; lia).
  destruct (Z.ltb_spec 0 d).
  - rewrite Z.abs_eq by lia. reflexivity.
  - rewrite Z.abs_neq by lia. reflexivity.
Qed.

Lemma disp32_text_cases (data : list byte) (lo : Z) :
  0 <= lo ->
  let d := from_bytes_little (py_slice data (Some lo) (Some (lo + 4))) in
  disp32_text d
  = if d =? 0 then ""
    else " + 0x" +:+ String.string_of_list_ascii (hex_fixed 8 d).
Proof.
  intros Hlo d. unfold disp32_text. destruct (d =? 0); [reflexivity|].
  rewrite format_0wX_fixed; [reflexivity | lia |].
  subst d. rewrite py_slice_range by lia.
  replace (lo + 4 - lo) with 4 by lia.
  pose proof (from_bytes_little_take_bound
                (drop (Z.to_nat lo) data) (Z.to_nat 4)) as H.
  change (16 ^ Z.of_nat 8) with (256 ^ Z.of_nat (Z.to_nat 4)). exact H.
Qed.

Lemma modrm_operand_inv data osz ii tok size m mod_ reg rm_ :
  modrm_disassemble data osz ii = Ok (tok, size) ->
  py_index data 0 = Ok m ->
  parse_modrm (byte_val m) = (mod_, reg, rm_) ->
  (mod_ = 1 -> rm_ <> 4 ->
   exists d1 r,
     py_index data 1 = Ok d1 /\ reg_name rm_ = Ok r
     /\ Instruction.rm tok
        = Some ("[ byte " +:+ r +:+ disp8_text (to_signed (byte_val d1))
                  +:+ " ]"))
  /\ (mod_ = 1 -> rm_ = 4 ->
      exists d1 d2 head,
        py_index data 1 = Ok d1 /\ py_index data 2 = Ok d2
        /\ sib_head "byte" (byte_val d1) = Ok head
        /\ Instruction.rm tok
           = Some (head +:+ disp8_text (to_signed (byte_val d2)) +:+ " ]"))
  /\ (mod_ = 2 -> rm_ <> 4 ->
      exists r,
        reg_name rm_ = Ok r
        /\ Instruction.rm tok
           = Some ("[ dword " +:+ r
                     +:+ disp32_text
                           (from_bytes_little
                              (py_slice data (Some 1) (Some 5)))
                     +:+ " ]"))
  /\ (mod_ = 2 -> rm_ = 4 ->
      exists d1 head,
        py_index data 1 = Ok d1
        /\ sib_head "dword" (byte_val d1) = Ok head
        /\ Instruction.rm tok
           = Some (head
                     +:+ disp32_text
                           (from_bytes_little
                              (py_slice data (Some 2) (Some 6)))
                     +:+ " ]")).
Proof.
  intros H Hm Hp. unfold modrm_disassemble in H. rewrite Hm in H.
  unfold modrm_get_addressing_mode in H.
  unfold_bind H. rewrite Hp in H. cbv beta iota in H.
  break_match.
  all: repeat match goal with
         | H : (_ =? _) = true |- _ => apply Z.eqb_eq in H
         | H : (_ =? _) = false |- _ => apply Z.eqb_neq in H
         end.
  all: simplify_eq.
  all: repeat split; intros; try lia; try congruence.
  all: cbn [Instruction.rm Instruction.with_rm Instruction.with_immediate].
  all: repeat match goal with |- exists _, _ => eexists end.
  all: repeat match goal with
         | |- _ /\ _ => split
         | |- Ok _ = Ok _ => reflexivity
         | |- reg_name _ = Ok _ => eassumption
         | |- py_index _ _ = Ok _ => eassumption
         | |- sib_head _ _ = Ok _ =>
             unfold sib_head;
             match goal with H : parse_sib _ = _ |- _ => rewrite H end;
             cbv beta iota;
             first [ match goal with
                     | H : ?x <> 4 |- context [?x =? 4] =>
                         rewrite (proj2 (Z.eqb_neq x 4) H)
                     end
                   | change (4 =? 4) with true ];
             cbv beta iota; unfold mbind, result_bind;
             repeat match goal with
                    | H : reg_name _ = Ok _ |- _ => rewrite H
                    end;
             reflexivity
         | |- Some _ = Some _ => reflexivity
         end.
Qed.

(** C7.  In the addressing-byte decoder a byte displacement (mode 1) is
    the signed reading of one byte and is rendered, when not zero, as a
    sign, [+] or [-], and [0x] with two uppercase hexadecimal digits of the
    absolute value; a dword displacement (mode 2) is the unsigned reading of
    four bytes and is rendered, when not zero, as [+ 0x] with eight
    uppercase hexadecimal digits, never with a minus sign; a displacement of
    zero adds nothing to the operand text in either mode.  The bytes
    [8B 40 00] render as [mov eax, [ byte eax ]] and consume 3 bytes. *)
Theorem C7_displacement_rendering (data : list byte) (osz : Z)
    (ii : InstructionInfo) (tok : Instruction.t) (size : Z) (m : byte)
    (mod_ reg rm_ : Z) :
  modrm_disassemble data osz ii = Ok (tok, size) ->
  py_index data 0 = Ok m ->
  parse_modrm (byte_val m) = (mod_, reg, rm_) ->
  (mod_ = 1 -> rm_ <> 4 ->
   exists d1 r,
     py_index data 1 = Ok d1 /\ reg_name rm_ = Ok r
     /\ Instruction.rm tok
        = Some ("[ byte " +:+ r +:+ disp8_text (to_signed (byte_val d1))
                  +:+ " ]"))
  /\ (mod_ = 1 -> rm_ = 4 ->
      exists d1 d2 head,
        py_index data 1 = Ok d1 /\ py_index data 2 = Ok d2
        /\ sib_head "byte" (byte_val d1) = Ok head
        /\ Instruction.rm tok
           = Some (head +:+ disp8_text (to_signed (byte_val d2)) +:+ " ]"))
  /\ (mod_ = 2 -> rm_ <> 4 ->
      exists r,
        reg_name rm_ = Ok r
        /\ Instruction.rm tok
           = Some ("[ dword " +:+ r
                     +:+ disp32_text
                           (from_bytes_little
                              (py_slice data (Some 1) (Some 5)))
                     +:+ " ]"))
  /\ (mod_ = 2 -> rm_ = 4 ->
      exists d1 head,
        py_index data 1 = Ok d1
        /\ sib_head "dword" (byte_val d1) = Ok head
        /\ Instruction.rm tok
           = Some (head
                     +:+ disp32_text
                           (from_bytes_little
                              (py_slice data (Some 2) (Some 6)))
                     +:+ " ]"))
  /\ (forall b : byte,
        let d := to_signed (byte_val b) in
        disp8_text d
        = if d =? 0 then ""
          else if 0 <? d
               then " + 0x" +:+ String.string_of_list_ascii (hex_fixed 2 d)
               else " - 0x"
                      +:+ String.string_of_list_ascii (hex_fixed 2 (- d)))
  /\ (forall (bs : list byte) (lo : Z),
        0 <= lo ->
        let d := from_bytes_little (py_slice bs (Some lo) (Some (lo + 4))) in
        0 <= d
        /\ disp32_text d
           = if d =? 0 then ""
             else " + 0x" +:+ String.string_of_list_ascii (hex_fixed 8 d))
  /\ (forall offset, exists t,
        disassemble [Byte.x8b; Byte.x40; Byte.x00] offset = Ok (t, 3)
        /\ Instruction_str t = Ok "mov eax, [ byte eax ]"%string).
Proof.
  intros H Hm Hp.
  destruct (modrm_operand_inv _ _ _ _ _ _ _ _ _ H Hm Hp)
    as (H1 & H2 & H3 & H4).
  split; [exact H1|]. split; [exact H2|]. split; [exact H3|].
  split; [exact H4|]. split; [exact disp8_text_cases|]. split.
  - intros bs lo Hlo d. split; [|apply disp32_text_cases; assumption].
    apply from_bytes_little_bound.
  - intros offset. eexists. split; vm_compute; reflexivity.
Qed.

(** [8B 40 F0], [8B 80 10 00 00 80] and [8B 44 88 00], after the opcode. *)
Lemma C7_witness :
  (exists d1 r,
     py_index [Byte.x40; Byte.xf0] 1 = Ok d1 /\ reg_name 0 = Ok r
     /\ Some "[ byte eax - 0x10 ]"%string
        = Some ("[ byte " +:+ r +:+ disp8_text (to_signed (byte_val d1))
                  +:+ " ]"))
  /\ (exists r,
        reg_name 0 = Ok r
        /\ Some "[ dword eax + 0x80000010 ]"%string
           = Some ("[ dword " +:+ r
                     +:+ disp32_text
                           (from_bytes_little
                              (py_slice
                                 [Byte.x80; Byte.x10; Byte.x00; Byte.x00;
                                  Byte.x80] (Some 1) (Some 5)))
                     +:+ " ]")).
Proof.
  split.
  - refine (proj1 (C7_displacement_rendering [Byte.x40; Byte.xf0] 1
                     (info 0x8B "mov" true RM)
                     (Instruction.mk (Some "mov"%string) (Some RM) PNone
                        (Some "eax"%string)
                        (Some "[ byte eax - 0x10 ]"%string) None None None
                        false)
                     3 Byte.x40 1 0 0 _ _ _) eq_refl _);
      try (vm_compute; reflexivity). discriminate.
  - refine (proj1 (proj2 (proj2
             (C7_displacement_rendering
                [Byte.x80; Byte.x10; Byte.x00; Byte.x00; Byte.x80] 1
                (info 0x8B "mov" true RM)
                (Instruction.mk (Some "mov"%string) (Some RM) PNone
                   (Some "eax"%string)
                   (Some "[ dword eax + 0x80000010 ]"%string) None None None
                   false)
                6 Byte.x80 2 0 0 _ _ _))) eq_refl _);
      try (vm_compute; reflexivity). discriminate.
Defined.

(** * Further properties of the code *)

(** ** The table *)

Lemma table_keys_NoDup : NoDup table_keys.
Proof. apply (bool_decide_unpack _). vm_compute. exact Logic.I. Qed.

Lemma table_keys_eq : GLOBAL_INSTRUCTIONS_LITERAL.*1 = table_keys.
Proof. vm_compute. reflexivity. Qed.

Lemma lookup_key (k : Z) (ii : InstructionInfo) :
  GLOBAL_INSTRUCTIONS_MAP !! k = Some ii -> k ∈ table_keys.
Proof.
  intros H. apply elem_of_list_to_map_2 in H. rewrite <- table_keys_eq.
  apply list_elem_of_fmap. exists (k, ii). auto.
Qed.

Lemma table_entry_shape (k : Z) (ii : InstructionInfo) :
  GLOBAL_INSTRUCTIONS_MAP !! k = Some ii -> entry_shape (k, ii).
Proof.
  intros H. apply elem_of_list_to_map_2 in H.
  assert (Hall : Forall entry_shape GLOBAL_INSTRUCTIONS_LITERAL).
  { apply (bool_decide_unpack _). vm_compute. exact Logic.I. }
  rewrite Forall_forall in Hall. exact (Hall _ H).
Qed.

(** X1.  The table literal has no repeated key, so the dictionary holds
    exactly its entries; every record repeats its key as [opcode]; a record
    has a mnemonic exactly when it has no extension map; extension groups
    have an addressing byte; and every base of [REGADD_OPCODES] is a key
    whose record is register-embedded without addressing byte. *)
Theorem X1_table_invariants :
  NoDup (GLOBAL_INSTRUCTIONS_LITERAL.*1)
  /\ (forall k ii,
        GLOBAL_INSTRUCTIONS_MAP !! k = Some ii
        <-> (k, ii) ∈ GLOBAL_INSTRUCTIONS_LITERAL)
  /\ (forall k ii,
        GLOBAL_INSTRUCTIONS_MAP !! k = Some ii ->
        opcode ii = k /\ entry_shape (k, ii))
  /\ Forall (fun base =>
               exists ii, GLOBAL_INSTRUCTIONS_MAP !! base = Some ii
                 /\ has_modrm ii = false
                 /\ (encoding ii = O \/ encoding ii = OI))
       REGADD_OPCODES.
Proof.
  assert (Hnd : NoDup (GLOBAL_INSTRUCTIONS_LITERAL.*1)).
  { rewrite table_keys_eq. apply table_keys_NoDup. }
  split; [exact Hnd|]. split; [|split].
  - intros k ii. unfold GLOBAL_INSTRUCTIONS_MAP.
    symmetry. apply elem_of_list_to_map. exact Hnd.
  - intros k ii H. split.
    + destruct (record_fields _ _ H) as (Hop & _). exact Hop.
    + exact (table_entry_shape _ _ H).
  - destruct instructions_getitem_regadd as (H48 & H40 & HB8 & H58 & H50).
    unfold REGADD_OPCODES.
    repeat apply List.Forall_cons; try apply List.Forall_nil.
    all: eexists; split;
      [apply instructions_getitem_Ok; eassumption|].
    all: cbn [has_modrm encoding info info_plus]; auto.
Qed.

(** ** Register-embedded opcodes *)

(** Decides the comparisons of the goal whose outcome [lia] can tell. *)
Ltac decide_tests :=
  repeat match goal with
         | |- context [?a <=? ?b] =>
             first [ replace (a <=? b) with true by lia
                   | replace (a <=? b) with false by lia ]
         | |- context [?a <? ?b] =>
             first [ replace (a <? b) with true by lia
                   | replace (a <? b) with false by lia ]
         | |- context [?a =? ?b] =>
             first [ replace (a =? b) with true by lia
                   | replace (a =? b) with false by lia ]
         end;
  cbn [andb orb negb].

Lemma regadd_check_opcode_range (op : Z) :
  regadd_check_opcode op
  = Ok (if (0x40 <=? op) && (op <? 0x60) || (0xB8 <=? op) && (op <? 0xC0)
        then GLOBAL_INSTRUCTIONS_MAP !! (8 * (op / 8))
        else None).
Proof.
  destruct instructions_getitem_regadd as (H48 & H40 & HB8 & H58 & H50).
  apply instructions_getitem_Ok in H48 as L48, H40 as L40, HB8 as LB8,
    H58 as L58, H50 as L50.
  unfold regadd_check_opcode, REGADD_OPCODES, regadd_scan.
  rewrite H48, H40, HB8, H58, H50. unfold mbind, result_bind.
  assert (op < 0x40 \/ 0x40 <= op < 0x48 \/ 0x48 <= op < 0x50
          \/ 0x50 <= op < 0x58 \/ 0x58 <= op < 0x60 \/ 0x60 <= op < 0xB8
          \/ 0xB8 <= op < 0xC0 \/ 0xC0 <= op) as Hcases by lia.
  destruct Hcases as [H|[H|[H|[H|[H|[H|[H|H]]]]]]]; decide_tests;
    try reflexivity; f_equal; symmetry.
  - replace (op / 8) with 8
      by (apply Z.div_unique with (op - 8 * 8); lia). exact L40.
  - replace (op / 8) with 9
      by (apply Z.div_unique with (op - 8 * 9); lia). exact L48.
  - replace (op / 8) with 10
      by (apply Z.div_unique with (op - 8 * 10); lia). exact L50.
  - replace (op / 8) with 11
      by (apply Z.div_unique with (op - 8 * 11); lia). exact L58.
  - replace (op / 8) with 23
      by (apply Z.div_unique with (op - 8 * 23); lia). exact LB8.
Qed.

(** X2.  [regadd_check_opcode] never raises.  It finds a record exactly for
    the opcodes [0x40..0x5F] and [0xB8..0xBF], and the record found is the
    table entry of the opcode with its low three bits cleared. *)
Theorem X2_regadd_check_opcode (op : Z) :
  regadd_check_opcode op
  = Ok (if (0x40 <=? op) && (op <? 0x60) || (0xB8 <=? op) && (op <? 0xC0)
        then GLOBAL_INSTRUCTIONS_MAP !! (8 * (op / 8))
        else None).
Proof. exact (regadd_check_opcode_range op). Qed.


(** A key is a byte value or one of the four two-byte opcodes, and the
    only keys in the register-embedded ranges are the five bases. *)
Lemma lookup_key_shape (k : Z) (ii : InstructionInfo) :
  GLOBAL_INSTRUCTIONS_MAP !! k = Some ii ->
  (0 <= k < 256 \/ k = 0x0FAE \/ k = 0x0F85 \/ k = 0x0F84 \/ k = 0xF2A7)
  /\ (0x40 <= k < 0x60 \/ 0xB8 <= k < 0xC0 ->
      k = 0x40 \/ k = 0x48 \/ k = 0x50 \/ k = 0x58 \/ k = 0xB8).
Proof.
  intros H. apply lookup_key in H.
  assert (Hall : Forall (fun k =>
            (0 <= k < 256 \/ k = 0x0FAE \/ k = 0x0F85 \/ k = 0x0F84
             \/ k = 0xF2A7)
            /\ (0x40 <= k < 0x60 \/ 0xB8 <= k < 0xC0 ->
                k = 0x40 \/ k = 0x48 \/ k = 0x50 \/ k = 0x58 \/ k = 0xB8))
          table_keys).
  { apply (bool_decide_unpack _). vm_compute. exact Logic.I. }
  rewrite Forall_forall in Hall. exact (Hall k H).
Qed.

Lemma from_bytes_big_two (b : byte) (rest : list byte) :
  from_bytes_big (py_slice (b :: rest) None (Some 2))
  = match rest with
    | [] => byte_val b
    | r :: _ => 256 * byte_val b + byte_val r
    end.
Proof.
  rewrite py_slice_upto by lia. change (Z.to_nat 2) with 2%nat.
  destruct rest as [|r rest']; cbn [firstn]; unfold from_bytes_big;
    rewrite ?take_0; cbn [fold_left]; lia.
Qed.

Lemma reg_name_in_range (i : Z) :
  0 <= i < 8 ->
  exists r, reg_name i = Ok r
            /\ GLOBAL_REGISTER_NAMES !! Z.to_nat i = Some r.
Proof.
  intros Hi. unfold reg_name, py_index.
  change (Z.of_nat (length GLOBAL_REGISTER_NAMES)) with 8.
  decide_tests.
  destruct (lookup_lt_is_Some_2 GLOBAL_REGISTER_NAMES (Z.to_nat i))
    as [r Hr].
  { change (length GLOBAL_REGISTER_NAMES) with 8%nat. lia. }
  rewrite Hr. eauto.
Qed.

(** Which record the dispatch selects for a register-embedded opcode byte:
    the entry of the byte with its low three bits cleared. *)
Lemma select_record_regadd (b : byte) (rest : list byte) :
  0x40 <= byte_val b < 0x60 \/ 0xB8 <= byte_val b < 0xC0 ->
  exists osz ii,
    select_record (b :: rest) = Ok (Some (osz, ii))
    /\ GLOBAL_INSTRUCTIONS_MAP !! (8 * (byte_val b / 8)) = Some ii.
Proof.
  intros Hv. pose proof (byte_val_range b) as Hb.
  unfold select_record. rewrite py_index_head.
  unfold mbind, result_bind. cbv beta iota.
  destruct (GLOBAL_INSTRUCTIONS_MAP !! byte_val b) as [ii|] eqn:E1.
  - exists (Some 1), ii. split; [reflexivity|].
    destruct (lookup_key_shape _ _ E1) as [_ Hk].
    pose proof (Hk Hv) as Hc.
    destruct Hc as [Hc|[Hc|[Hc|[Hc|Hc]]]]; rewrite Hc in *; exact E1.
  - rewrite from_bytes_big_two.
    assert (GLOBAL_INSTRUCTIONS_MAP
              !! match rest with
                 | [] => byte_val b
                 | r :: _ => 256 * byte_val b + byte_val r
                 end = None) as ->.
    { destruct rest as [|r rest']; [exact E1|].
      pose proof (byte_val_range r).
      destruct (GLOBAL_INSTRUCTIONS_MAP !! (256 * byte_val b + byte_val r))
        as [ii2|] eqn:E2; [|reflexivity].
      destruct (lookup_key_shape _ _ E2) as [Hs _]. lia. }
    rewrite regadd_check_opcode_range.
    replace ((64 <=? byte_val b) && (byte_val b <? 96)
             || (184 <=? byte_val b) && (byte_val b <? 192)) with true
      by (destruct Hv; decide_tests; reflexivity).
    destruct (GLOBAL_INSTRUCTIONS_MAP !! (8 * (byte_val b / 8)))
      as [ii|] eqn:E2.
    + exists None, ii. split; reflexivity.
    + exfalso.
      assert (byte_val b / 8 = 8 \/ byte_val b / 8 = 9 \/ byte_val b / 8 = 10
              \/ byte_val b / 8 = 11 \/ byte_val b / 8 = 23) as Hq.
      { pose proof (Z.div_mod (byte_val b) 8 ltac:(lia)).
        pose proof (Z.mod_pos_bound (byte_val b) 8 ltac:(lia)). lia. }
      destruct Hq as [Hq|[Hq|[Hq|[Hq|Hq]]]]; rewrite Hq in E2;
        vm_compute in E2; discriminate.
Qed.

(** The record of a register-embedded family, from its base opcode. *)
Lemma regadd_record (v : Z) (ii : InstructionInfo) :
  0x40 <= v < 0x60 \/ 0xB8 <= v < 0xC0 ->
  GLOBAL_INSTRUCTIONS_MAP !! (8 * (v / 8)) = Some ii ->
  opcode ii = 8 * (v / 8)
  /\ mnemonic ii = Some (regadd_family v)
  /\ has_modrm ii = false
  /\ encoding ii = (if v <? 0x60 then O else OI)
  /\ imm_size ii = 4.
Proof.
  intros Hv H.
  pose proof (Z.div_mod v 8 ltac:(lia)).
  pose proof (Z.mod_pos_bound v 8 ltac:(lia)).
  assert (v / 8 = 8 \/ v / 8 = 9 \/ v / 8 = 10 \/ v / 8 = 11 \/ v / 8 = 23)
    as Hq by lia.
  unfold regadd_family.
  destruct Hq as [Hq|[Hq|[Hq|[Hq|Hq]]]]; rewrite Hq in *;
    vm_compute in H; injection H as <-; decide_tests;
    repeat split; reflexivity.
Qed.

(** X3.  A byte in [0x40..0x5F] decodes, whatever follows it and at any
    offset, to the one-byte instruction [inc], [dec], [push] or [pop] (by
    its bits 4-3) of the register whose number is its low three bits.  A
    byte in [0xB8..0xBF] decodes to [mov] of that register with the
    following four bytes, read little-endian and unsigned, rendered as [0x]
    and eight uppercase hexadecimal digits; 5 bytes are consumed. *)
Theorem X3_register_embedded_decode (b : byte) (rest : list byte)
    (offset : Z) :
  (0x40 <= byte_val b < 0x60 ->
   exists r,
     GLOBAL_REGISTER_NAMES !! Z.to_nat (byte_val b mod 8) = Some r
     /\ disassemble (b :: rest) offset
        = Ok (Instruction.mk (Some (regadd_family (byte_val b))) (Some O)
                PNone (Some r) None None None None false, 1))
  /\ (0xB8 <= byte_val b < 0xC0 ->
      exists r,
        GLOBAL_REGISTER_NAMES !! Z.to_nat (byte_val b mod 8) = Some r
        /\ disassemble (b :: rest) offset
           = Ok (Instruction.mk (Some "mov"%string) (Some OI)
                   (PStr ("0x" +:+ String.string_of_list_ascii
                                     (hex_fixed 8
                                        (from_bytes_little (take 4 rest)))))
                   (Some r) None None None None false, 5)).
Proof.
  assert (Hgen : forall (Hv : 0x40 <= byte_val b < 0x60
                              \/ 0xB8 <= byte_val b < 0xC0),
            exists ii r,
              GLOBAL_INSTRUCTIONS_MAP !! (8 * (byte_val b / 8)) = Some ii
              /\ GLOBAL_REGISTER_NAMES !! Z.to_nat (byte_val b mod 8)
                 = Some r
              /\ disassemble (b :: rest) offset
                 = match regadd_disassemble (b :: rest) ii with
                   | Ok res => Ok res
                   | Raise _ => Ok (Instruction.db (byte_val b), 1)
                   end
              /\ reg_name (regadd_index (byte_val b) ii) = Ok r).
  { intros Hv.
    destruct (select_record_regadd b rest Hv) as (osz & ii & Hsel & Hk).
    destruct (regadd_record _ _ Hv Hk) as (Hop & _ & Hm & Henc & _).
    pose proof (Z.div_mod (byte_val b) 8 ltac:(lia)).
    pose proof (Z.mod_pos_bound (byte_val b) 8 ltac:(lia)).
    destruct (reg_name_in_range (byte_val b mod 8) ltac:(lia))
      as (r & Hr & Hn).
    exists ii, r. split; [exact Hk|]. split; [exact Hn|]. split.
    - unfold disassemble. rewrite Hsel. unfold mbind, result_bind.
      cbv beta iota. rewrite py_index_head. unfold decode_selected.
      rewrite Hm, Henc.
      destruct (byte_val b <? 96); reflexivity.
    - unfold regadd_index. rewrite Hop.
      replace (byte_val b - 8 * (byte_val b / 8)) with (byte_val b mod 8)
        by lia.
      exact Hr. }
  split; intros Hv.
  - destruct (Hgen (or_introl Hv)) as (ii & r & Hk & Hn & Hd & Hr).
    destruct (regadd_record _ _ (or_introl Hv) Hk)
      as (Hop & Hmn & Hm & Henc & Hw).
    exists r. split; [exact Hn|]. rewrite Hd.
    unfold regadd_disassemble. rewrite py_index_head.
    unfold mbind, result_bind. cbv beta iota. rewrite Hr, Hmn, Henc.
    replace (byte_val b <? 96) with true by lia.
    rewrite bool_decide_eq_false_2 by discriminate. reflexivity.
  - destruct (Hgen (or_intror Hv)) as (ii & r & Hk & Hn & Hd & Hr).
    destruct (regadd_record _ _ (or_intror Hv) Hk)
      as (Hop & Hmn & Hm & Henc & Hw).
    exists r. split; [exact Hn|]. rewrite Hd.
    unfold regadd_disassemble. rewrite py_index_head.
    unfold mbind, result_bind. cbv beta iota. rewrite Hr, Hmn, Henc, Hw.
    replace (byte_val b <? 96) with false by lia.
    rewrite bool_decide_eq_true_2 by reflexivity.
    unfold regadd_family. decide_tests.
    rewrite py_slice_range by lia. change (Z.to_nat (1 + 4 - 1)) with 4%nat.
    change (Z.to_nat 1) with 1%nat. cbn [drop].
    rewrite format_0wX_fixed; [reflexivity | lia |].
    pose proof (from_bytes_little_take_bound rest 4) as Hbound.
    change (16 ^ Z.of_nat 8) with (256 ^ Z.of_nat 4). exact Hbound.
Qed.

(** [0x53] is [push ebx]; [BF 78 56 34 12] is [mov edi, 0x12345678]. *)
Lemma X3_witness :
  (exists r,
     GLOBAL_REGISTER_NAMES !! Z.to_nat (byte_val Byte.x53 mod 8) = Some r
     /\ disassemble [Byte.x53; Byte.xff] 9
        = Ok (Instruction.mk (Some (regadd_family (byte_val Byte.x53)))
                (Some O) PNone (Some r) None None None None false, 1))
  /\ (exists r,
        GLOBAL_REGISTER_NAMES !! Z.to_nat (byte_val Byte.xbf mod 8) = Some r
        /\ disassemble [Byte.xbf; Byte.x78; Byte.x56; Byte.x34; Byte.x12] 0
           = Ok (Instruction.mk (Some "mov"%string) (Some OI)
                   (PStr ("0x" +:+ String.string_of_list_ascii
                                     (hex_fixed 8
                                        (from_bytes_little
                                           (take 4
                                              [Byte.x78; Byte.x56; Byte.x34;
                                               Byte.x12])))))
                   (Some r) None None None None false, 5)).
Proof.
  split.
  - apply (proj1 (X3_register_embedded_decode Byte.x53 [Byte.xff] 9)).
    vm_compute. split; [discriminate | reflexivity].
  - apply (proj2 (X3_register_embedded_decode Byte.xbf
                    [Byte.x78; Byte.x56; Byte.x34; Byte.x12] 0)).
    vm_compute. split; [discriminate | reflexivity].
Defined.

(** ** Two-byte lookup after a zero byte *)

Lemma lookup_00 : GLOBAL_INSTRUCTIONS_MAP !! 0 = None.
Proof. vm_compute. reflexivity. Qed.

(** X4.  The byte [00] is no key, and the two-byte lookup reads [00 r] as
    the number [r]: when [r] is a one-byte key, the buffer [00 r ...] is
    decoded with the record of [r] and [opcode_size] 2, so the zero byte is
    taken for part of the opcode.  A size the decoder then returns is at
    least 2; [00 90] is a [nop] of size 2 and [00 05 01 00 00 00] is
    [add eax, 0x00000001] of size 6. *)
Theorem X4_zero_byte_joins_next_opcode (r : byte) (rest : list byte)
    (offset : Z) (ii : InstructionInfo) :
  GLOBAL_INSTRUCTIONS_MAP !! byte_val r = Some ii ->
  select_record (Byte.x00 :: r :: rest) = Ok (Some (Some 2, ii))
  /\ disassemble (Byte.x00 :: r :: rest) offset
     = match decode_selected (Byte.x00 :: r :: rest) (Some 2) ii offset with
       | Ok res => Ok res
       | Raise _ => Ok (Instruction.db 0, 1)
       end
  /\ (forall tok size,
        disassemble (Byte.x00 :: r :: rest) offset = Ok (tok, size) ->
        Instruction.is_db tok = false -> 2 <= size)
  /\ disassemble [Byte.x00; Byte.x90] offset
     = Ok (Instruction.mk (Some "nop"%string) (Some ZO) PNone None None None
             None None false, 2)
  /\ disassemble [Byte.x00; Byte.x05; Byte.x01; Byte.x00; Byte.x00; Byte.x00]
       offset
     = Ok (Instruction.mk (Some "add eax,"%string) (Some I)
             (PStr "0x00000001") None None None None None false, 6).
Proof.
  intros Hk.
  assert (Hsel : select_record (Byte.x00 :: r :: rest)
                 = Ok (Some (Some 2, ii))).
  { unfold select_record. rewrite py_index_head.
    unfold mbind, result_bind. cbv beta iota.
    change (byte_val Byte.x00) with 0. rewrite lookup_00.
    rewrite from_bytes_big_two. change (byte_val Byte.x00) with 0.
    replace (256 * 0 + byte_val r) with (byte_val r) by lia.
    rewrite Hk. reflexivity. }
  assert (Hdis : disassemble (Byte.x00 :: r :: rest) offset
     = match decode_selected (Byte.x00 :: r :: rest) (Some 2) ii offset with
       | Ok res => Ok res
       | Raise _ => Ok (Instruction.db 0, 1)
       end).
  { unfold disassemble. rewrite Hsel. unfold mbind, result_bind.
    cbv beta iota. rewrite py_index_head. reflexivity. }
  split; [exact Hsel|]. split; [exact Hdis|]. split; [|split].
  - intros tok size Hd Hdb. rewrite Hdis in Hd.
    pose proof (record_imm_size_nonneg _ _ Hk) as Hw.
    destruct (decode_selected _ _ _ _) as [[tok' size']|e] eqn:Hdec.
    + injection Hd as -> ->. unfold decode_selected in Hdec.
      cbn [local] in Hdec. unfold_bind Hdec.
      destruct (has_modrm ii).
      * apply modrm_disassemble_inv in Hdec; [lia | assumption].
      * destruct (bool_decide (encoding ii = O)
                  || bool_decide (encoding ii = OI)) eqn:HO.
        -- exfalso. unfold regadd_disassemble in Hdec.
           rewrite py_index_head in Hdec. unfold_bind Hdec.
           unfold regadd_index in Hdec. change (byte_val Byte.x00) with 0 in Hdec.
           destruct (record_fields _ _ Hk) as (Hop & _). rewrite Hop in Hdec.
           pose proof (byte_val_range r).
           unfold reg_name, py_index in Hdec.
           change (Z.of_nat (length GLOBAL_REGISTER_NAMES)) with 8 in Hdec.
           destruct (lookup_key_shape _ _ Hk) as [_ Hrange].
           destruct (record_fields _ _ Hk) as (_ & _ & _ & Hmod & _).
           destruct (Z.ltb_spec (0 - byte_val r) 0) as [Hneg|Hpos].
           ++ destruct (Z.ltb_spec (0 - byte_val r + 8) 0) as [?|Hin];
                [cbn [orb] in Hdec; discriminate|].
              (* the index wraps into range only for r <= 8 *)
              assert (Hr8 : byte_val r <= 8) by lia.
              apply orb_prop in HO.
              assert (Hex : forall k jj, GLOBAL_INSTRUCTIONS_MAP !! k = Some jj ->
                        0 <= k <= 8 ->
                        encoding jj <> O /\ encoding jj <> OI).
              { intros k jj Hkj Hk8. apply elem_of_list_to_map_2 in Hkj.
                assert (Hall : Forall (fun p : Z * InstructionInfo =>
                          0 <= p.1 <= 8 ->
                          encoding p.2 <> O /\ encoding p.2 <> OI)
                          GLOBAL_INSTRUCTIONS_LITERAL).
                { apply (bool_decide_unpack _). vm_compute. exact Logic.I. }
                rewrite Forall_forall in Hall. exact (Hall _ Hkj Hk8). }
              destruct (Hex _ _ Hk ltac:(lia)) as [HnO HnOI].
              destruct HO as [HO|HO]; apply bool_decide_eq_true_1 in HO;
                contradiction.
           ++ assert (byte_val r = 0) as Hr0 by lia.
              rewrite Hr0 in Hk. rewrite lookup_00 in Hk. discriminate.
        -- apply no_modrm_no_regadd_disassemble_inv in Hdec; [lia|assumption].
    + injection Hd as <- <-. discriminate.
  - vm_compute. reflexivity.
  - vm_compute. reflexivity.
Qed.

(** With [r = 90]. *)
Lemma X4_witness :
  select_record [Byte.x00; Byte.x90; Byte.xc3]
  = Ok (Some (Some 2, info 0x90 "nop" false ZO)).
Proof.
  apply (X4_zero_byte_joins_next_opcode Byte.x90 [Byte.xc3] 0
           (info 0x90 "nop" false ZO)).
  vm_compute. reflexivity.
Defined.

(** ** Sizes *)

Lemma modrm_disassemble_size_le data osz ii tok size :
  0 <= imm_size ii ->
  modrm_disassemble data osz ii = Ok (tok, size) ->
  size <= osz + 6 + imm_size ii.
Proof.
  intros Hw H. unfold modrm_disassemble in H. unfold_bind H.
  break_match.
  all: simplify_eq; lia.
Qed.

Lemma regadd_disassemble_size_le data ii tok size :
  0 <= imm_size ii ->
  regadd_disassemble data ii = Ok (tok, size) ->
  size <= 1 + imm_size ii.
Proof.
  intros Hw H. unfold regadd_disassemble in H. unfold_bind H.
  break_match.
  all: simplify_eq; lia.
Qed.

Lemma no_modrm_no_regadd_disassemble_size data osz ii offset tok size :
  no_modrm_no_regadd_disassemble data osz ii offset = Ok (tok, size) ->
  size = if bool_decide (encoding ii = ZO) then osz else osz + imm_size ii.
Proof.
  intros H. unfold no_modrm_no_regadd_disassemble in H.
  cbn [Instruction.encoding] in H.
  destruct (encoding ii) eqn:Henc.
  all: repeat first
         [ rewrite bool_decide_eq_true_2 in H by reflexivity
         | rewrite bool_decide_eq_false_2 in H by discriminate ].
  all: cbn [negb orb] in H; cbv beta iota zeta in H.
  all: cbn [Instruction.encoding Instruction.with_reg] in H.
  all: repeat first
         [ rewrite bool_decide_eq_true_2 in H by reflexivity
         | rewrite bool_decide_eq_false_2 in H by discriminate ].
  all: break_match.
  all: simplify_eq.
  all: first [ rewrite bool_decide_eq_true_2 by reflexivity
             | rewrite bool_decide_eq_false_2 by discriminate ];
       reflexivity.
Qed.

Lemma disassemble_size_le (b : byte) (rest : list byte) (offset : Z)
    (tok : Instruction.t) (size : Z) :
  disassemble (b :: rest) offset = Ok (tok, size) -> 1 <= size <= 12.
Proof.
  intros H.
  destruct (disassemble_cons b rest offset) as (tok' & size' & H' & Hge & _).
  rewrite H in H'. injection H' as <- <-. split; [exact Hge|].
  unfold disassemble in H.
  destruct (select_record_cons b rest) as (sel & Hsel & Hfacts).
  rewrite Hsel in H. unfold mbind, result_bind in H.
  rewrite py_index_head in H.
  destruct sel as [[osz ii]|]; [|injection H as <- <-; lia].
  destruct (Hfacts osz ii eq_refl) as ((k & Hk) & Hosz).
  destruct (decode_selected (b :: rest) osz ii offset) as [[tok' size']|e]
    eqn:Hdec; [|injection H as <- <-; lia].
  injection H as -> ->.
  pose proof (record_imm_size_nonneg _ _ Hk) as Hw.
  destruct (record_fields _ _ Hk) as (_ & Hw4 & _).
  unfold decode_selected in Hdec.
  destruct (has_modrm ii) eqn:Hm.
  - destruct osz as [sz|]; [|cbn in Hdec; discriminate].
    cbn [local] in Hdec. unfold_bind Hdec.
    apply modrm_disassemble_size_le in Hdec; [|assumption].
    destruct Hosz as [[= ->]|[[= ->]|(? & _)]]; [lia | lia | discriminate].
  - destruct (bool_decide (encoding ii = O) || bool_decide (encoding ii = OI)).
    + apply regadd_disassemble_size_le in Hdec; [lia | assumption].
    + destruct osz as [sz|]; [|cbn in Hdec; discriminate].
      cbn [local] in Hdec. unfold_bind Hdec.
      apply no_modrm_no_regadd_disassemble_size in Hdec.
      destruct (bool_decide (encoding ii = ZO));
        destruct Hosz as [[= ->]|[[= ->]|(? & _)]]; try discriminate; lia.
Qed.

(** ** The sweep, step by step *)

Lemma sweep_body_spec (data : list byte) (st : sweep_state) :
  0 <= counter st < Z.of_nat (length data) ->
  exists tok size,
    disassemble (py_slice data (Some (counter st)) None) (counter st)
      = Ok (tok, size)
    /\ 1 <= size <= 12
    /\ sweep_body data st
       = Ok (mkSweep (counter st + size)
               (<[counter st := (relabel tok,
                                 step_bytes data (counter st, size))]>
                  (output_list st))
               (match destination tok with
                | Some n => <[n := label_of n]> (labels st)
                | None => labels st
                end)
               ((counter st, size) :: steps st)).
Proof.
  intros Hc. destruct (suffix_nonempty data _ Hc) as (b & rest & Hs).
  destruct (disassemble_cons b rest (counter st))
    as (tok & size & Hd & _ & Himm).
  pose proof (disassemble_size_le _ _ _ _ _ Hd) as Hsize.
  exists tok, size. rewrite Hs. split; [exact Hd|]. split; [exact Hsize|].
  unfold sweep_body. rewrite Hs, Hd. unfold mbind, result_bind.
  cbv beta iota. unfold relabel, destination, step_bytes, label_of.
  cbn [fst snd].
  destruct (bool_decide (Instruction.encoding tok = Some D)) eqn:HD.
  - apply bool_decide_eq_true_1 in HD. destruct (Himm HD) as (n & Hn).
    rewrite Hn, HD. cbn [fmt_val_0wX]. reflexivity.
  - apply bool_decide_eq_false_1 in HD.
    destruct (Instruction.encoding tok) as [[]|]; try reflexivity.
    contradiction.
Qed.

(** A property of the loop state that every iteration inside the buffer
    keeps holds when the loop ends. *)
Lemma sweep_loop_invariant (data : list byte) (P : sweep_state -> Prop) :
  (forall st st',
     P st -> 0 <= counter st < Z.of_nat (length data) ->
     sweep_body data st = Ok st' -> P st') ->
  forall fuel st st',
    0 <= counter st -> P st ->
    sweep_loop fuel data st = Some (Ok st') -> P st'.
Proof.
  intros Hstep. induction fuel as [|fuel IH]; intros st st' H0 HP Hrun;
    cbn [sweep_loop] in Hrun;
    destruct (Z.ltb_spec (counter st) (Z.of_nat (length data))) as [Hlt|Hge];
    try discriminate; try (injection Hrun as <-; exact HP).
  destruct (sweep_body_ok data st ltac:(lia))
    as (st2 & tok & size & _ & Hb & Hsize & Hc & _).
  rewrite Hb in Hrun. apply (IH st2); [lia | | exact Hrun].
  apply (Hstep st); [exact HP | lia | exact Hb].
Qed.

(** X5.  A decode step on a buffer that is not empty consumes between 1
    and 12 bytes, and 12 is reached; the sweep therefore ends less than 12
    bytes past the end of the buffer. *)
Theorem X5_size_bounds (data : list byte) (k : nat) :
  (forall b rest offset tok size,
      disassemble (b :: rest) offset = Ok (tok, size) -> 1 <= size <= 12)
  /\ (exists tok,
        disassemble [Byte.x00; Byte.x81; Byte.x84; Byte.x00] 0
          = Ok (tok, 12))
  /\ exists st,
       sweep_loop (length data + k) data sweep_init = Some (Ok st)
       /\ Z.of_nat (length data) <= counter st
          < Z.of_nat (length data) + 12.
Proof.
  split; [exact disassemble_size_le|].
  split; [eexists; vm_compute; reflexivity|].
  destruct (sweep_from_start data k) as (st & Hrun & _ & Hend).
  exists st. split; [exact Hrun|]. split; [exact Hend|].
  apply (sweep_loop_invariant data
           (fun s => counter s < Z.of_nat (length data) + 12))
    with (fuel := (length data + k)%nat) (st := sweep_init);
    [ | cbn; lia | cbn; lia | exact Hrun].
  intros s s' _ Hc Hb.
  destruct (sweep_body_spec data s Hc) as (tok & size & _ & Hsize & Hb').
  rewrite Hb in Hb'. injection Hb' as ->. cbn [counter]. lia.
Qed.

(** [E8] alone: the reported size 5 lies within the bounds. *)
Lemma X5_witness :
  1 <= 5 <= 12.
Proof.
  apply (proj1 (X5_size_bounds [] 0) Byte.xe8 [] 0
           (Instruction.mk (Some "call"%string) (Some D) (PInt 5) None None
              None None None false) 5).
  vm_compute. reflexivity.
Defined.

(** ** What the sweep returns *)

Lemma output_inv_step (data : list byte) (st st' : sweep_state) :
  output_inv data st ->
  0 <= counter st < Z.of_nat (length data) ->
  sweep_body data st = Ok st' -> output_inv data st'.
Proof.
  intros [Hsteps Hkeys] Hc Hb.
  destruct (sweep_body_spec data st Hc) as (tok & size & Hd & Hsize & Hb').
  rewrite Hb in Hb'. injection Hb' as ->. unfold output_inv.
  cbn [steps output_list counter]. split.
  - intros o s Hin. apply elem_of_cons in Hin as [[= -> ->]|Hin].
    + split; [lia|]. exists tok. split; [exact Hd|].
      apply lookup_insert_eq.
    + destruct (Hsteps o s Hin) as (Hlt & tok' & Hd' & Hl).
      split; [lia|]. exists tok'. split; [exact Hd'|].
      rewrite lookup_insert_ne by lia. exact Hl.
  - intros o Ho. rewrite fmap_cons. cbn [fst].
    destruct (decide (o = counter st)) as [->|Hne].
    + apply elem_of_cons. left. reflexivity.
    + rewrite lookup_insert_ne in Ho by congruence.
      apply elem_of_cons. right. apply Hkeys. exact Ho.
Qed.

Lemma labels_inv_step (data : list byte) (st st' : sweep_state) :
  labels_inv data st ->
  0 <= counter st < Z.of_nat (length data) ->
  sweep_body data st = Ok st' -> labels_inv data st'.
Proof.
  intros [Hlab Hstep] Hc Hb.
  destruct (sweep_body_spec data st Hc) as (tok & size & Hd & Hsize & Hb').
  rewrite Hb in Hb'. injection Hb' as ->. unfold labels_inv.
  cbn [steps labels]. split.
  - intros dest l Hl.
    destruct (destination tok) as [n|] eqn:Hn.
    + destruct (decide (n = dest)) as [->|Hne].
      * rewrite lookup_insert_eq in Hl. injection Hl as <-.
        split; [reflexivity|]. exists (counter st), size, tok.
        split; [apply elem_of_cons; left; reflexivity|]. auto.
      * rewrite lookup_insert_ne in Hl by exact Hne.
        destruct (Hlab dest l Hl) as (-> & o & s & t & Hin & Ho & Ht).
        split; [reflexivity|]. exists o, s, t.
        split; [apply elem_of_cons; right; exact Hin|]. auto.
    + destruct (Hlab dest l Hl) as (-> & o & s & t & Hin & Ho & Ht).
      split; [reflexivity|]. exists o, s, t.
      split; [apply elem_of_cons; right; exact Hin|]. auto.
  - intros o s t dest Hin Ho Ht.
    assert (Hold : (o, s) ∈ steps st -> labels st !! dest
                                        = Some (label_of dest))
      by (intros Hin'; exact (Hstep o s t dest Hin' Ho Ht)).
    apply elem_of_cons in Hin as [[= -> ->]|Hin].
    + rewrite Hd in Ho. injection Ho as <-. rewrite Ht.
      apply lookup_insert_eq.
    + destruct (destination tok) as [n|]; [|exact (Hold Hin)].
      destruct (decide (n = dest)) as [->|Hne].
      * apply lookup_insert_eq.
      * rewrite lookup_insert_ne by exact Hne. exact (Hold Hin).
Qed.

(** The bytes of the steps, oldest first, are the buffer up to the
    cursor. *)
Lemma steps_chain_bytes (data : list byte) (l : list (Z * Z)) (stop : Z) :
  steps_chain l stop ->
  steps_inside (Z.of_nat (length data)) l ->
  0 <= stop
  /\ concat (step_bytes data <$> reverse l) = take (Z.to_nat stop) data.
Proof.
  revert stop. induction l as [|[o s] l IH]; intros stop Hch Hin.
  - cbn in Hch. subst stop. split; [lia|]. reflexivity.
  - destruct Hch as [-> Hch]. apply Forall_cons in Hin as [[Ho Hs] Hin].
    cbn [fst snd] in Ho, Hs.
    destruct (IH o Hch Hin) as [_ IHeq]. split; [lia|].
    rewrite reverse_cons, fmap_app, concat_app, IHeq.
    cbn [fmap list_fmap concat]. rewrite app_nil_r.
    unfold step_bytes. cbn [fst snd]. rewrite py_slice_range by lia.
    rewrite take_take_drop. f_equal. lia.
Qed.

(** X6.  When the sweep of a buffer ends, the output maps exactly the
    offsets of the decode steps; the entry at an offset holds the token
    [disassemble] returns for the rest of the buffer at that offset, with a
    relative-displacement operand replaced by its label, and the slice of
    the buffer the step covers; and these slices, in the order of the
    steps, concatenate to the whole buffer. *)
Theorem X6_sweep_output (data : list byte) (k : nat) :
  exists st,
    sweep_loop (length data + k) data sweep_init = Some (Ok st)
    /\ (forall o s, (o, s) ∈ steps st ->
          exists tok,
            disassemble (py_slice data (Some o) None) o = Ok (tok, s)
            /\ output_list st !! o
               = Some (relabel tok, step_bytes data (o, s)))
    /\ (forall o, is_Some (output_list st !! o) <-> o ∈ (steps st).*1)
    /\ concat (step_bytes data <$> reverse (steps st)) = data.
Proof.
  destruct (sweep_from_start data k)
    as (st & Hrun & (H0 & Hch & Hin) & Hend).
  assert (Hout : output_inv data st).
  { apply (sweep_loop_invariant data (output_inv data) (output_inv_step data))
      with (fuel := (length data + k)%nat) (st := sweep_init);
      [cbn; lia | | exact Hrun].
    split.
    - intros o s Hi. cbn in Hi. apply elem_of_nil in Hi. contradiction.
    - intros o [x Hx]. cbn in Hx. rewrite lookup_empty in Hx. discriminate. }
  destruct Hout as [Hsteps Hkeys].
  exists st. split; [exact Hrun|]. split; [|split].
  - intros o s Hi. destruct (Hsteps o s Hi) as (_ & tok & Hd & Hl). eauto.
  - intros o. split; [apply Hkeys|].
    intros Ho. apply list_elem_of_fmap in Ho as ([o' s] & -> & Hi).
    destruct (Hsteps o' s Hi) as (_ & tok & _ & Hl). cbn [fst]. eauto.
  - destruct (steps_chain_bytes data _ _ Hch Hin) as [_ ->].
    apply take_ge. lia.
Qed.

(** X7.  When the sweep ends, the label mapping holds, for each
    destination some relative-displacement step jumps to, the text
    [offset_] + the destination in the format [08X] + [h], and it holds
    nothing else. *)
Theorem X7_sweep_labels (data : list byte) (k : nat) :
  exists st,
    sweep_loop (length data + k) data sweep_init = Some (Ok st)
    /\ forall dest l,
         labels st !! dest = Some l
         <-> l = label_of dest
             /\ exists o s tok,
                  (o, s) ∈ steps st
                  /\ disassemble (py_slice data (Some o) None) o
                     = Ok (tok, s)
                  /\ destination tok = Some dest.
Proof.
  destruct (sweep_from_start data k) as (st & Hrun & _ & _).
  assert (Hlab : labels_inv data st).
  { apply (sweep_loop_invariant data (labels_inv data) (labels_inv_step data))
      with (fuel := (length data + k)%nat) (st := sweep_init);
      [cbn; lia | | exact Hrun].
    split.
    - intros dest l Hl. cbn in Hl. rewrite lookup_empty in Hl. discriminate.
    - intros o s tok dest Hi. cbn in Hi. apply elem_of_nil in Hi.
      contradiction. }
  destruct Hlab as [Hl1 Hl2].
  exists st. split; [exact Hrun|]. intros dest l. split.
  - apply Hl1.
  - intros (-> & o & s & tok & Hi & Hd & Ht). exact (Hl2 o s tok dest Hi Hd Ht).
Qed.

(** ** Rendering the decoded tokens *)

Lemma record_mnemonic (k : Z) (ii : InstructionInfo) :
  GLOBAL_INSTRUCTIONS_MAP !! k = Some ii ->
  (forall reg a, modrm_get_mnemonic reg ii = Ok a -> a <> None)
  /\ (has_modrm ii = false ->
      mnemonic ii <> None
      /\ encoding ii <> M /\ encoding ii <> MI /\ encoding ii <> MR
      /\ encoding ii <> RM).
Proof.
  intros Hk.
  destruct (table_entry_shape _ _ Hk) as (Hmn & Hext & _).
  destruct (record_fields _ _ Hk) as (_ & _ & Hne & _).
  cbn [snd] in Hmn, Hext. split.
  - intros reg a Ha. rewrite modrm_get_mnemonic_cases in Ha by exact Hne.
    destruct (extension_map ii) as [m|] eqn:Hm.
    + destruct (m !! reg); [injection Ha as <-; discriminate | discriminate].
    + injection Ha as <-. intros Hnone. apply Hmn in Hnone.
      destruct Hnone as [? ?]. discriminate.
  - intros Hmod. split.
    + intros Hnone. apply Hmn in Hnone. apply Hext in Hnone. congruence.
    + apply elem_of_list_to_map_2 in Hk.
      assert (Hall : Forall (fun p : Z * InstructionInfo =>
                has_modrm p.2 = false ->
                encoding p.2 <> M /\ encoding p.2 <> MI
                /\ encoding p.2 <> MR /\ encoding p.2 <> RM)
                GLOBAL_INSTRUCTIONS_LITERAL).
      { apply (bool_decide_unpack _). vm_compute. exact Logic.I. }
      rewrite Forall_forall in Hall. exact (Hall _ Hk Hmod).
Qed.

Lemma modrm_disassemble_fields data osz ii tok size :
  (forall reg a, modrm_get_mnemonic reg ii = Ok a -> a <> None) ->
  (encoding ii = M \/ encoding ii = MI \/ encoding ii = MR
   \/ encoding ii = RM) ->
  modrm_disassemble data osz ii = Ok (tok, size) ->
  rendered_fields_set tok.
Proof.
  intros Hmn Henc H. unfold modrm_disassemble in H. unfold_bind H.
  break_match.
  all: simplify_eq; unfold rendered_fields_set;
       cbn [Instruction.mnemonic Instruction.encoding Instruction.rm
            Instruction.reg Instruction.immediate Instruction.with_rm
            Instruction.with_immediate].
  all: repeat match goal with
         | H : bool_decide _ = true |- _ => apply bool_decide_eq_true_1 in H
         | H : bool_decide _ = false |- _ =>
             apply bool_decide_eq_false_1 in H
         end.
  all: split; [eapply Hmn; eassumption|].
  all: destruct Henc as [He|[He|[He|He]]]; rewrite He in *;
       try contradiction; try discriminate; repeat split; discriminate.
Qed.

Lemma regadd_disassemble_fields data ii tok size :
  mnemonic ii <> None ->
  (encoding ii = O \/ encoding ii = OI) ->
  regadd_disassemble data ii = Ok (tok, size) ->
  rendered_fields_set tok.
Proof.
  intros Hmn Henc H. unfold regadd_disassemble in H. unfold_bind H.
  break_match.
  all: simplify_eq; unfold rendered_fields_set;
       cbn [Instruction.mnemonic Instruction.encoding Instruction.rm
            Instruction.reg Instruction.immediate Instruction.with_rm
            Instruction.with_immediate].
  all: repeat match goal with
         | H : bool_decide _ = true |- _ => apply bool_decide_eq_true_1 in H
         | H : bool_decide _ = false |- _ =>
             apply bool_decide_eq_false_1 in H
         end.
  all: split; [exact Hmn|].
  all: destruct Henc as [He|He]; rewrite He in *;
       try contradiction; try discriminate; repeat split; discriminate.
Qed.

Lemma no_modrm_no_regadd_disassemble_fields data osz ii offset tok size :
  mnemonic ii <> None ->
  encoding ii <> M -> encoding ii <> MI -> encoding ii <> MR ->
  encoding ii <> RM -> encoding ii <> O -> encoding ii <> OI ->
  no_modrm_no_regadd_disassemble data osz ii offset = Ok (tok, size) ->
  rendered_fields_set tok.
Proof.
  intros Hmn H1 H2 H3 H4 H5 H6 H.
  unfold no_modrm_no_regadd_disassemble in H.
  cbn [Instruction.encoding] in H.
  destruct (encoding ii) eqn:Henc; try contradiction.
  all: repeat first
         [ rewrite bool_decide_eq_true_2 in H by reflexivity
         | rewrite bool_decide_eq_false_2 in H by discriminate ].
  all: cbn [negb orb] in H; cbv beta iota zeta in H.
  all: cbn [Instruction.encoding Instruction.with_reg] in H.
  all: repeat first
         [ rewrite bool_decide_eq_true_2 in H by reflexivity
         | rewrite bool_decide_eq_false_2 in H by discriminate ].
  all: break_match.
  all: simplify_eq; unfold rendered_fields_set;
       cbn [Instruction.mnemonic Instruction.encoding Instruction.rm
            Instruction.reg Instruction.immediate Instruction.with_rm
            Instruction.with_immediate Instruction.with_reg].
  all: split; [exact Hmn|]; repeat split; try discriminate.
Qed.

Lemma db_str (b : byte) :
  exists s, Instruction_str (Instruction.db (byte_val b)) = Ok s.
Proof.
  unfold Instruction_str.
  cbn [Instruction.is_db Instruction.db Instruction.immediate fmt_val_0wX].
  unfold mbind, result_bind. eauto.
Qed.

Lemma rendered_fields_str (tok : Instruction.t) :
  Instruction.is_db tok = false -> rendered_fields_set tok ->
  exists s, Instruction_str tok = Ok s.
Proof.
  intros Hdb [Hmn Hf]. unfold Instruction_str. rewrite Hdb.
  destruct (Instruction.encoding tok) as [[]|]; try (eexists; reflexivity).
  - destruct (Instruction.mnemonic tok); [eauto | contradiction].
  - contradiction.
Qed.

(** X8.  A token [disassemble] returns for a buffer that is not empty is
    either the placeholder of the first byte, with size 1, or an
    instruction for whose encoding every attribute the rendering prints is
    set.  In both cases [__str__] returns a text, before and after the
    sweep has put a label in. *)
Theorem X8_decoded_tokens_render (b : byte) (rest : list byte) (offset : Z)
    (tok : Instruction.t) (size : Z) :
  disassemble (b :: rest) offset = Ok (tok, size) ->
  ((tok = Instruction.db (byte_val b) /\ size = 1)
   \/ (Instruction.is_db tok = false /\ rendered_fields_set tok))
  /\ (exists s, Instruction_str tok = Ok s)
  /\ (exists s, Instruction_str (relabel tok) = Ok s).
Proof.
  intros H.
  assert (Hcases : (tok = Instruction.db (byte_val b) /\ size = 1)
                   \/ (Instruction.is_db tok = false
                       /\ rendered_fields_set tok)).
  { unfold disassemble in H.
    destruct (select_record_cons b rest) as (sel & Hsel & Hfacts).
    rewrite Hsel in H. unfold mbind, result_bind in H.
    rewrite py_index_head in H.
    destruct sel as [[osz ii]|]; [|injection H as <- <-; auto].
    destruct (Hfacts osz ii eq_refl) as ((k & Hk) & Hosz).
    destruct (decode_selected (b :: rest) osz ii offset) as [[tok' size']|e]
      eqn:Hdec; [|injection H as <- <-; auto].
    injection H as -> ->. right.
    pose proof (decode_selected_inv _ _ _ _ _ _ _ Hk Hosz Hdec)
      as (_ & Hdb & _).
    split; [exact Hdb|].
    destruct (record_mnemonic _ _ Hk) as (Hmn1 & Hmn2).
    destruct (record_fields _ _ Hk) as (_ & _ & _ & Hmod & _).
    unfold decode_selected in Hdec.
    destruct (has_modrm ii) eqn:Hm.
    - destruct osz as [sz|]; [|cbn in Hdec; discriminate].
      cbn [local] in Hdec. unfold_bind Hdec.
      exact (modrm_disassemble_fields _ _ _ _ _ Hmn1 (Hmod eq_refl) Hdec).
    - destruct (Hmn2 eq_refl) as (Hmn & HnM & HnMI & HnMR & HnRM).
      destruct (bool_decide (encoding ii = O)
                || bool_decide (encoding ii = OI)) eqn:HO.
      + apply orb_prop in HO.
        apply (regadd_disassemble_fields _ _ _ _ Hmn) in Hdec; [exact Hdec|].
        destruct HO as [HO|HO]; apply bool_decide_eq_true_1 in HO; auto.
      + apply orb_false_elim in HO as [HO1 HO2].
        apply bool_decide_eq_false_1 in HO1, HO2.
        destruct osz as [sz|]; [|cbn in Hdec; discriminate].
        cbn [local] in Hdec. unfold_bind Hdec.
        exact (no_modrm_no_regadd_disassemble_fields _ _ _ _ _ _ Hmn HnM HnMI
                 HnMR HnRM HO1 HO2 Hdec). }
  split; [exact Hcases|].
  destruct Hcases as [[-> ->]|[Hdb Hset]].
  - split; [apply db_str|].
    change (relabel (Instruction.db (byte_val b)))
      with (Instruction.db (byte_val b)). apply db_str.
  - split; [exact (rendered_fields_str tok Hdb Hset)|].
    apply rendered_fields_str.
    + unfold relabel. destruct (destination tok); [exact Hdb..].
    + unfold relabel. destruct (destination tok) as [n|] eqn:Hn;
        [|exact Hset].
      unfold destination in Hn. destruct Hset as [Hmn Hf].
      unfold rendered_fields_set.
      cbn [Instruction.with_immediate Instruction.mnemonic
           Instruction.encoding Instruction.immediate].
      split; [exact Hmn|].
      destruct (Instruction.encoding tok) as [[]|]; try discriminate.
Qed.

(** [90] is [nop]: an instruction whose attributes are all set. *)
Lemma X8_witness :
  exists s,
    Instruction_str
      (Instruction.mk (Some "nop"%string) (Some ZO) PNone None None None None
         None false) = Ok s.
Proof.
  apply (proj1 (proj2 (X8_decoded_tokens_render Byte.x90 [] 0
                         (Instruction.mk (Some "nop"%string) (Some ZO) PNone
                            None None None None None false) 1
                         ltac:(vm_compute; reflexivity)))).
Defined.

(** The whole buffer [90 C3] is two steps whose bytes give it back. *)
Lemma X6_witness :
  exists st,
    sweep_loop 2 [Byte.x90; Byte.xc3] sweep_init = Some (Ok st)
    /\ concat (step_bytes [Byte.x90; Byte.xc3] <$> reverse (steps st))
       = [Byte.x90; Byte.xc3].
Proof.
  destruct (X6_sweep_output [Byte.x90; Byte.xc3] 0)
    as (st & Hrun & _ & _ & Hcat).
  exists st. split; [exact Hrun | exact Hcat].
Defined.

(** The sweep of [EB 00] records the label of destination 2. *)
Lemma X7_witness :
  exists st,
    sweep_loop 2 [Byte.xeb; Byte.x00] sweep_init = Some (Ok st)
    /\ labels st !! 2 = Some (label_of 2).
Proof.
  destruct (X7_sweep_labels [Byte.xeb; Byte.x00] 0) as (st & Hrun & Hl).
  exists st. split; [exact Hrun|].
  apply Hl. split; [reflexivity|].
  assert (Hst : st = mkSweep 2
            {[0 := (Instruction.mk (Some "jmp"%string) (Some D)
                      (PStr "offset_00000002h") None None None None None
                      false, [Byte.xeb; Byte.x00])]}
            {[2 := "offset_00000002h"%string]} [(0, 2)]).
  { assert (Hc : sweep_loop 2 [Byte.xeb; Byte.x00] sweep_init
                 = Some (Ok (mkSweep 2
            {[0 := (Instruction.mk (Some "jmp"%string) (Some D)
                      (PStr "offset_00000002h") None None None None None
                      false, [Byte.xeb; Byte.x00])]}
            {[2 := "offset_00000002h"%string]} [(0, 2)])))
      by (vm_compute; reflexivity).
    change (length [Byte.xeb; Byte.x00] + 0)%nat with 2%nat in Hrun.
    rewrite Hc in Hrun. injection Hrun as <-. reflexivity. }
  exists 0, 2,
    (Instruction.mk (Some "jmp"%string) (Some D) (PInt 2) None None None None
       None false).
  rewrite Hst. split; [apply list_elem_of_singleton; reflexivity|].
  split; vm_compute; reflexivity.
Defined.

(** ** The offset argument *)

Lemma no_modrm_offset data osz ii o1 o2 :
  exists t1 t2 s,
    no_modrm_no_regadd_disassemble data osz ii o1 = Ok (t1, s)
    /\ no_modrm_no_regadd_disassemble data osz ii o2 = Ok (t2, s)
    /\ Instruction.encoding t1 = Some (encoding ii)
    /\ (encoding ii = I \/ encoding ii = ZO -> t1 = t2).
Proof.
  unfold no_modrm_no_regadd_disassemble. cbn [Instruction.encoding].
  destruct (encoding ii) eqn:Henc.
  all: repeat first
         [ rewrite bool_decide_eq_true_2 by reflexivity
         | rewrite bool_decide_eq_false_2 by discriminate ].
  all: cbn [negb orb]; cbv beta iota zeta.
  all: cbn [Instruction.encoding Instruction.with_reg].
  all: repeat first
         [ rewrite bool_decide_eq_true_2 by reflexivity
         | rewrite bool_decide_eq_false_2 by discriminate ].
  all: repeat match goal with
         | |- context [if ?c then _ else _] => destruct c
         end.
  all: do 3 eexists; split; [reflexivity|]; split; [reflexivity|];
       split; [reflexivity|]; intros [?|?]; try discriminate; reflexivity.
Qed.

(** X9.  The offset passed to [disassemble] never changes the size it
    returns, and it changes the token only for the relative-displacement
    and fixed-accumulator encodings: for any other token the result is the
    same at every offset. *)
Theorem X9_offset_only_in_relative_operands (data : list byte) (o1 o2 : Z)
    (t1 : Instruction.t) (s1 : Z) :
  disassemble data o1 = Ok (t1, s1) ->
  exists t2,
    disassemble data o2 = Ok (t2, s1)
    /\ (Instruction.encoding t1 <> Some D ->
        Instruction.encoding t1 <> Some FD ->
        Instruction.encoding t1 <> Some TD -> t2 = t1).
Proof.
  intros H. destruct data as [|b rest].
  { unfold disassemble in H. rewrite select_record_nil in H. discriminate. }
  unfold disassemble in *.
  destruct (select_record_cons b rest) as (sel & Hsel & Hfacts).
  rewrite Hsel in *. unfold mbind, result_bind in *.
  rewrite py_index_head in *.
  destruct sel as [[osz ii]|]; [|eexists; split; [exact H | auto]].
  destruct (Hfacts osz ii eq_refl) as ((k & Hk) & Hosz).
  destruct (record_mnemonic _ _ Hk) as (_ & Hnm).
  unfold decode_selected in *.
  destruct (has_modrm ii) eqn:Hm; [eexists; split; [exact H | auto]|].
  destruct (bool_decide (encoding ii = O) || bool_decide (encoding ii = OI))
    eqn:HO; [eexists; split; [exact H | auto]|].
  destruct osz as [sz|]; [|eexists; split; [exact H | auto]].
  cbn [local] in *. unfold mbind, result_bind in *.
  destruct (no_modrm_offset (py_slice (b :: rest) (Some sz) None) sz ii o1 o2)
    as (u1 & u2 & s & Hu1 & Hu2 & He & Heq).
  rewrite Hu1 in H. rewrite Hu2. injection H as <- <-.
  exists u2. split; [reflexivity|]. intros HD HFD HTD. symmetry. apply Heq.
  destruct (Hnm eq_refl) as (_ & HnM & HnMI & HnMR & HnRM).
  apply orb_false_elim in HO as [HO1 HO2].
  apply bool_decide_eq_false_1 in HO1, HO2. rewrite He in HD, HFD, HTD.
  destruct (encoding ii); try contradiction; auto.
Qed.

(** [6A 05] is [push 5] of size 2 at offset 0 and at offset 100. *)
Lemma X9_witness :
  exists t2,
    disassemble [Byte.x6a; Byte.x05] 100 = Ok (t2, 2)
    /\ (Some I <> Some D -> Some I <> Some FD -> Some I <> Some TD ->
        t2 = Instruction.mk (Some "push"%string) (Some I) (PStr "5") None
               None None None None false).
Proof.
  apply (X9_offset_only_in_relative_operands [Byte.x6a; Byte.x05] 0 100
           (Instruction.mk (Some "push"%string) (Some I) (PStr "5") None None
              None None None false) 2).
  vm_compute. reflexivity.
Defined.

(** ** Addressing modes a record does not permit *)

Lemma lookup_8D :
  GLOBAL_INSTRUCTIONS_MAP !! 0x8D
  = Some (mkInfo 0x8D (Some "lea"%string) true RM None [0; 1; 2] false None
            4).
Proof. vm_compute. reflexivity. Qed.

Lemma modrm_mode_not_permitted data osz ii m :
  py_index data 0 = Ok m ->
  (parse_modrm (byte_val m)).1.1 ∉ addressing_modes ii ->
  exists e, modrm_disassemble data osz ii = Raise e.
Proof.
  intros Hm Hmode. unfold modrm_disassemble. rewrite Hm.
  unfold mbind, result_bind. cbv beta iota.
  destruct (parse_modrm (byte_val m)) as [[mod_ reg] rm_].
  cbn [fst snd] in Hmode.
  destruct (modrm_get_mnemonic reg ii); [|eauto].
  destruct (reg_name reg); [|eauto].
  unfold modrm_get_addressing_mode.
  rewrite bool_decide_eq_false_2 by exact Hmode. eauto.
Qed.

(** X10.  [modrm_get_addressing_mode] returns the mode when the record
    permits it and raises the invalid-addressing-mode fault otherwise.
    [lea] ([8D]) and [clflush] ([0F AE]) do not permit mode 3: whatever
    follows, such a buffer decodes to the placeholder of its first byte,
    with size 1. *)
Theorem X10_mode_not_permitted (m : byte) (rest : list byte) (offset : Z) :
  (forall mod_ ii,
     modrm_get_addressing_mode mod_ ii
     = if bool_decide (mod_ ∈ addressing_modes ii) then Ok mod_
       else Raise (Exception (invalid_mode_msg mod_ ii)))
  /\ ((parse_modrm (byte_val m)).1.1 = 3 ->
      disassemble (Byte.x8d :: m :: rest) offset
        = Ok (Instruction.db 0x8D, 1)
      /\ disassemble (Byte.x0f :: Byte.xae :: m :: rest) offset
         = Ok (Instruction.db 0x0F, 1)).
Proof.
  split; [reflexivity|]. intros Hmode. split.
  - dispatch_on Byte.x8d 0x8D lookup_8D.
    cbn [has_modrm local]. unfold mbind, result_bind.
    rewrite py_slice_tail.
    destruct (modrm_mode_not_permitted (m :: rest) 1
                (mkInfo 0x8D (Some "lea"%string) true RM None [0; 1; 2] false
                   None 4) m (py_index_head _ _)) as [e He];
      [rewrite Hmode; apply (bool_decide_unpack _); vm_compute; exact Logic.I|].
    rewrite He. reflexivity.
  - unfold disassemble.
    assert (Hsel : select_record (Byte.x0f :: Byte.xae :: m :: rest)
                   = Ok (Some (Some 2, info_ext 0x0FAE M
                                         [(7, "clflush"%string)] [0; 1; 2]))).
    { unfold select_record. rewrite py_index_head.
      unfold mbind, result_bind. cbv beta iota.
      replace (GLOBAL_INSTRUCTIONS_MAP !! byte_val Byte.x0f) with
        (@None InstructionInfo) by (vm_compute; reflexivity).
      rewrite from_bytes_big_two.
      replace (GLOBAL_INSTRUCTIONS_MAP
                 !! (256 * byte_val Byte.x0f + byte_val Byte.xae))
        with (Some (info_ext 0x0FAE M [(7, "clflush"%string)] [0; 1; 2]))
        by (vm_compute; reflexivity).
      reflexivity. }
    rewrite Hsel. unfold mbind, result_bind. cbv beta iota.
    unfold decode_selected. cbn [has_modrm info_ext local].
    unfold mbind, result_bind.
    replace (py_slice (Byte.x0f :: Byte.xae :: m :: rest) (Some 2) None)
      with (m :: rest) by (rewrite py_slice_from by lia; reflexivity).
    destruct (modrm_mode_not_permitted (m :: rest) 2
                (info_ext 0x0FAE M [(7, "clflush"%string)] [0; 1; 2]) m
                (py_index_head _ _)) as [e He];
      [rewrite Hmode; apply (bool_decide_unpack _); vm_compute; exact Logic.I|].
    rewrite He, py_index_head. reflexivity.
Qed.

(** [8D C0] would be [lea eax, eax]. *)
Lemma X10_witness :
  disassemble [Byte.x8d; Byte.xc0] 0 = Ok (Instruction.db 0x8D, 1).
Proof.
  apply (proj2 (X10_mode_not_permitted Byte.xc0 [] 0)).
  vm_compute. reflexivity.
Defined.

(** ** The empty buffer *)

(** X11.  [disassemble] raises [IndexError] on the empty buffer, from the
    subscript it evaluates outside its [try].  The sweep never gets there:
    every buffer it passes to [disassemble] has at least one byte, and the
    sweep of the empty buffer returns two empty mappings. *)
Theorem X11_empty_buffer (data : list byte) (offset : Z) :
  disassemble [] offset = Raise IndexError
  /\ linnear_sweep [] = Some (Ok (∅, ∅))
  /\ (forall st, 0 <= counter st < Z.of_nat (length data) ->
        py_slice data (Some (counter st)) None <> []).
Proof.
  split; [|split].
  - unfold disassemble. rewrite select_record_nil. reflexivity.
  - reflexivity.
  - intros st Hc Hnil.
    destruct (suffix_nonempty data _ Hc) as (b & rest & Hs).
    rewrite Hs in Hnil. discriminate.
Qed.

(** An iteration at offset 1 of a buffer of 2 bytes. *)
Lemma X11_witness :
  py_slice [Byte.x90; Byte.xc3] (Some (counter (mkSweep 1 ∅ ∅ []))) None
  <> [].
Proof.
  apply (proj2 (proj2 (X11_empty_buffer [Byte.x90; Byte.xc3] 0))
           (mkSweep 1 ∅ ∅ [])).
  cbn. lia.
Defined.

(** ** Short jumps *)

Lemma from_bytes_little_signed_one (d : byte) (rest : list byte) :
  from_bytes_little_signed (py_slice (d :: rest) None (Some 1))
  = if 128 <=? byte_val d then byte_val d - 256 else byte_val d.
Proof.
  rewrite py_slice_upto by lia. change (Z.to_nat 1) with 1%nat.
  cbn [firstn]. rewrite take_0. unfold from_bytes_little_signed.
  cbn [from_bytes_little length].
  change (8 * Z.of_nat 1) with 8. change (0 <? 8) with true.
  change (2 ^ (8 - 1)) with 128. change (2 ^ 8) with 256. cbn [andb].
  replace (byte_val d + 256 * 0) with (byte_val d) by lia. reflexivity.
Qed.

Lemma short_jump_decode (b d : byte) (rest : list byte) (offset : Z)
    (mn : string) :
  GLOBAL_INSTRUCTIONS_MAP !! byte_val b
    = Some (info_imm (byte_val b) mn false D 1) ->
  disassemble (b :: d :: rest) offset
  = Ok (Instruction.mk (Some mn) (Some D)
          (PInt (offset + 2
                 + (if 128 <=? byte_val d then byte_val d - 256
                    else byte_val d)))
          None None None None None false, 2).
Proof.
  intros Hk. unfold disassemble, select_record. rewrite py_index_head.
  unfold mbind, result_bind. cbv beta iota. rewrite Hk.
  unfold decode_selected. cbn [has_modrm encoding info_imm local].
  rewrite !bool_decide_eq_false_2 by discriminate. cbn [orb].
  unfold mbind, result_bind. rewrite py_slice_tail.
  rewrite no_modrm_relative by reflexivity.
  cbn [imm_size mnemonic info_imm].
  rewrite from_bytes_little_signed_one.
  match goal with
  | |- context [PInt (?e + (offset + (1 + 1)))] =>
      replace (e + (offset + (1 + 1))) with (offset + 2 + e) by lia
  end.
  reflexivity.
Qed.

(** X12.  The short jumps [EB] ([jmp]), [74] ([jz]) and [75] ([jnz])
    followed by a byte [d] consume 2 bytes and store the destination
    [offset + 2 + d'], where [d'] is [d] read as a signed byte; the
    destination lies between [offset - 126] and [offset + 129], and
    [EB FE] jumps to its own offset. *)
Theorem X12_short_jump_destination (d : byte) (rest : list byte)
    (offset : Z) :
  let d' := if 128 <=? byte_val d then byte_val d - 256 else byte_val d in
  let tok mn :=
    Instruction.mk (Some mn) (Some D) (PInt (offset + 2 + d')) None None
      None None None false in
  disassemble (Byte.xeb :: d :: rest) offset = Ok (tok "jmp"%string, 2)
  /\ disassemble (Byte.x74 :: d :: rest) offset = Ok (tok "jz"%string, 2)
  /\ disassemble (Byte.x75 :: d :: rest) offset = Ok (tok "jnz"%string, 2)
  /\ offset - 126 <= offset + 2 + d' <= offset + 129
  /\ destination (tok "jmp"%string) = Some (offset + 2 + d')
  /\ disassemble (Byte.xeb :: Byte.xfe :: rest) offset
     = Ok (Instruction.mk (Some "jmp"%string) (Some D) (PInt offset) None
             None None None None false, 2).
Proof.
  intros d' tok.
  split; [apply short_jump_decode; vm_compute; reflexivity|].
  split; [apply short_jump_decode; vm_compute; reflexivity|].
  split; [apply short_jump_decode; vm_compute; reflexivity|].
  split.
  { subst d'. pose proof (byte_val_range d).
    destruct (128 <=? byte_val d) eqn:E; lia. }
  split; [reflexivity|].
  rewrite (short_jump_decode Byte.xeb Byte.xfe rest offset "jmp")
    by (vm_compute; reflexivity).
  change (byte_val Byte.xfe) with 254. change (128 <=? 254) with true.
  cbv iota. replace (offset + 2 + (254 - 256)) with offset by lia.
  reflexivity.
Qed.

(** ** How many steps a sweep makes *)

Lemma steps_chain_offsets (n : Z) (l : list (Z * Z)) (stop : Z) :
  steps_chain l stop -> steps_inside n l ->
  Forall (fun p => p.1 < stop) l
  /\ Z.of_nat (length l) <= stop
  /\ NoDup l.*1.
Proof.
  revert stop. induction l as [|[o s] l IH]; intros stop Hch Hin.
  - cbn in Hch. subst stop. repeat split; [constructor | cbn; lia |].
    apply NoDup_nil_2.
  - destruct Hch as [-> Hch]. apply Forall_cons in Hin as [[Ho Hs] Hin].
    cbn [fst snd] in Ho, Hs.
    destruct (IH o Hch Hin) as (Hlt & Hlen & Hnd). split; [|split].
    + apply Forall_cons. split; [cbn; lia|].
      eapply Forall_impl; [exact Hlt|]. intros p Hp. cbn beta in Hp. lia.
    + cbn [length]. lia.
    + rewrite fmap_cons. apply NoDup_cons. split; [|exact Hnd].
      cbn [fst]. intros Hmem.
      apply list_elem_of_fmap in Hmem as ([o' s'] & Heq & Hi).
      cbn [fst] in Heq. subst o'.
      rewrite Forall_forall in Hlt. specialize (Hlt _ Hi). cbn in Hlt. lia.
Qed.

(** X13.  The sweep makes at most one step per byte of the buffer, no two
    steps start at the same offset, and the output has exactly one entry
    per step. *)
Theorem X13_one_entry_per_step (data : list byte) (k : nat) :
  exists st,
    sweep_loop (length data + k) data sweep_init = Some (Ok st)
    /\ (length (steps st) <= length data)%nat
    /\ NoDup (steps st).*1
    /\ size (output_list st) = length (steps st).
Proof.
  destruct (sweep_from_start data k)
    as (st & Hrun & (H0 & Hch & Hin) & Hend).
  destruct (steps_chain_offsets _ _ _ Hch Hin) as (Hlt & Hlen & Hnd).
  assert (Hout : output_inv data st).
  { apply (sweep_loop_invariant data (output_inv data) (output_inv_step data))
      with (fuel := (length data + k)%nat) (st := sweep_init);
      [cbn; lia | | exact Hrun].
    split.
    - intros o s Hi. cbn in Hi. apply elem_of_nil in Hi. contradiction.
    - intros o [x Hx]. cbn in Hx. rewrite lookup_empty in Hx. discriminate. }
  destruct Hout as [Hsteps Hkeys].
  exists st. split; [exact Hrun|]. split; [|split; [exact Hnd|]].
  - destruct (steps st) as [|[o s] l] eqn:El; [cbn; lia|].
    destruct Hch as [_ Hch']. apply Forall_cons in Hin as [[Ho _] Hin'].
    destruct (steps_chain_offsets _ _ _ Hch' Hin') as (_ & Hl & _).
    cbn [fst] in Ho. cbn [length]. lia.
  - rewrite <- size_dom.
    assert (Hdom : dom (output_list st)
                   = (list_to_set (steps st).*1 : gset Z)).
    { apply set_eq. intros o. rewrite elem_of_dom, elem_of_list_to_set.
      split; [apply Hkeys|].
      intros Ho. apply list_elem_of_fmap in Ho as ([o' s] & -> & Hi).
      destruct (Hsteps o' s Hi) as (_ & tok & _ & Hl'). cbn [fst]. eauto. }
    rewrite Hdom, size_list_to_set by exact Hnd.
    apply length_fmap.
Qed.

(** ** Opcodes without operand *)

(** X14.  A one-byte opcode whose record has the no-operand encoding
    decodes to its mnemonic alone and consumes 1 byte, whatever follows and
    at any offset; the two-byte [F2 A7] consumes 2. *)
Theorem X14_no_operand_opcodes (b : byte) (rest : list byte) (offset : Z)
    (ii : InstructionInfo) :
  GLOBAL_INSTRUCTIONS_MAP !! byte_val b = Some ii ->
  encoding ii = ZO ->
  disassemble (b :: rest) offset
  = Ok (Instruction.mk (mnemonic ii) (Some ZO) PNone None None None None
          None false, 1)
  /\ Instruction_str
       (Instruction.mk (mnemonic ii) (Some ZO) PNone None None None None
          None false)
     = match mnemonic ii with
       | Some s => Ok s
       | None => Raise TypeError
       end
  /\ mnemonic ii <> None
  /\ disassemble (Byte.xf2 :: Byte.xa7 :: rest) offset
     = Ok (Instruction.mk (Some "repne cmpsd"%string) (Some ZO) PNone None
             None None None None false, 2).
Proof.
  intros Hk HZO.
  destruct (record_mnemonic _ _ Hk) as (_ & Hnm).
  assert (Hm : has_modrm ii = false).
  { destruct (record_fields _ _ Hk) as (_ & _ & _ & Hmod & _).
    destruct (has_modrm ii); [|reflexivity].
    destruct (Hmod eq_refl) as [?|[?|[?|?]]]; congruence. }
  split; [|split; [reflexivity|split; [exact (proj1 (Hnm Hm))|]]].
  - unfold disassemble, select_record. rewrite py_index_head.
    unfold mbind, result_bind. cbv beta iota. rewrite Hk.
    unfold decode_selected. rewrite Hm, HZO.
    rewrite !bool_decide_eq_false_2 by discriminate. cbn [orb local].
    unfold mbind, result_bind. unfold no_modrm_no_regadd_disassemble.
    rewrite HZO. cbn [Instruction.encoding].
    rewrite bool_decide_eq_true_2 by reflexivity. reflexivity.
  - unfold disassemble.
    assert (Hsel : select_record (Byte.xf2 :: Byte.xa7 :: rest)
                   = Ok (Some (Some 2, info 0xF2A7 "repne cmpsd" false ZO))).
    { unfold select_record. rewrite py_index_head.
      unfold mbind, result_bind. cbv beta iota.
      replace (GLOBAL_INSTRUCTIONS_MAP !! byte_val Byte.xf2) with
        (@None InstructionInfo) by (vm_compute; reflexivity).
      rewrite from_bytes_big_two.
      replace (GLOBAL_INSTRUCTIONS_MAP
                 !! (256 * byte_val Byte.xf2 + byte_val Byte.xa7))
        with (Some (info 0xF2A7 "repne cmpsd" false ZO))
        by (vm_compute; reflexivity).
      reflexivity. }
    rewrite Hsel. reflexivity.
Qed.

(** [C3] is [retn]. *)
Lemma X14_witness :
  disassemble [Byte.xc3; Byte.x90] 8
  = Ok (Instruction.mk (Some "retn"%string) (Some ZO) PNone None None None
          None None false, 1).
Proof.
  apply (proj1 (X14_no_operand_opcodes Byte.xc3 [Byte.x90] 8
                  (info 0xC3 "retn" false ZO)
                  ltac:(vm_compute; reflexivity) eq_refl)).
Defined.

(** ** The addressing decoder: size, register operand, modes 3 and 0 *)

Lemma modrm_disassemble_shape data osz ii tok size m mod_ reg rm_ :
  modrm_disassemble data osz ii = Ok (tok, size) ->
  py_index data 0 = Ok m ->
  parse_modrm (byte_val m) = (mod_, reg, rm_) ->
  size = osz + 1 + operand_bytes mod_ rm_ (sib_of data)
         + (if bool_decide (encoding ii = MI) then imm_size ii else 0)
  /\ (exists r, reg_name reg = Ok r /\ Instruction.reg tok = Some r)
  /\ (mod_ = 3 ->
      exists r, reg_name rm_ = Ok r /\ Instruction.rm tok = Some r)
  /\ (mod_ = 0 -> rm_ <> 4 -> rm_ <> 5 ->
      exists r, reg_name rm_ = Ok r
                /\ Instruction.rm tok = Some ("[ " +:+ r +:+ " ]"))
  /\ (mod_ = 0 -> rm_ = 5 ->
      Instruction.rm tok
      = Some ("[ 0x"
                +:+ format_0wX 8
                      (from_bytes_little (py_slice data (Some 1) (Some 5)))
                +:+ " ]")).
Proof.
  intros H Hm Hp. unfold modrm_disassemble in H. rewrite Hm in H.
  unfold modrm_get_addressing_mode in H.
  unfold_bind H. rewrite Hp in H. cbv beta iota in H.
  break_match.
  all: repeat match goal with
         | H : (_ =? _) = true |- _ => apply Z.eqb_eq in H
         | H : (_ =? _) = false |- _ => apply Z.eqb_neq in H
         end.
  all: simplify_eq.
  all: cbn [Instruction.rm Instruction.reg Instruction.with_rm
            Instruction.with_immediate].
  all: split;
    [ unfold operand_bytes, sib_of;
      repeat match goal with
             | H : py_index _ 1 = _ |- _ => rewrite H
             | H : parse_sib _ = _ |- _ => rewrite H
             | H : bool_decide _ = _ |- _ => rewrite H
             end;
      cbv beta iota; decide_tests; lia
    | ].
  all: split; [eauto|].
  all: repeat split; intros; try lia; try congruence; eauto.
Qed.

(** X15.  When [modrm_disassemble] returns, the size is the opcode size,
    plus 1 for the addressing byte, plus the operand bytes its mode and
    selectors call for, plus the immediate width for the encoding [MI]; the
    register operand is the name at the register selector; in mode 3 the
    addressing operand is the name at the operand selector; in mode 0 it is
    that name in brackets, or, for selector 5, the four following bytes as
    a bracketed address of eight uppercase hexadecimal digits. *)
Theorem X15_addressing_decoder_shape (data : list byte) (osz : Z)
    (ii : InstructionInfo) (tok : Instruction.t) (size : Z) (m : byte)
    (mod_ reg rm_ : Z) :
  modrm_disassemble data osz ii = Ok (tok, size) ->
  py_index data 0 = Ok m ->
  parse_modrm (byte_val m) = (mod_, reg, rm_) ->
  size = osz + 1 + operand_bytes mod_ rm_ (sib_of data)
         + (if bool_decide (encoding ii = MI) then imm_size ii else 0)
  /\ (exists r, reg_name reg = Ok r /\ Instruction.reg tok = Some r)
  /\ (mod_ = 3 ->
      exists r, reg_name rm_ = Ok r /\ Instruction.rm tok = Some r)
  /\ (mod_ = 0 -> rm_ <> 4 -> rm_ <> 5 ->
      exists r, reg_name rm_ = Ok r
                /\ Instruction.rm tok = Some ("[ " +:+ r +:+ " ]"))
  /\ (mod_ = 0 -> rm_ = 5 ->
      Instruction.rm tok
      = Some ("[ 0x"
                +:+ String.string_of_list_ascii
                      (hex_fixed 8
                         (from_bytes_little
                            (py_slice data (Some 1) (Some 5))))
                +:+ " ]")).
Proof.
  intros H Hm Hp.
  destruct (modrm_disassemble_shape _ _ _ _ _ _ _ _ _ H Hm Hp)
    as (H1 & H2 & H3 & H4 & H5).
  split; [exact H1|]. split; [exact H2|]. split; [exact H3|].
  split; [exact H4|]. intros Hmod Hrm. rewrite (H5 Hmod Hrm).
  rewrite format_0wX_fixed; [reflexivity | lia |].
  rewrite py_slice_range by lia.
  pose proof (from_bytes_little_take_bound
                (drop (Z.to_nat 1) data) (Z.to_nat (5 - 1))) as Hb.
  change (16 ^ Z.of_nat 8) with (256 ^ Z.of_nat (Z.to_nat (5 - 1))).
  exact Hb.
Qed.

(** [89 C8], after the opcode: [mov eax, ecx], mode 3. *)
Lemma X15_witness :
  2 = 1 + 1 + operand_bytes 3 0 (sib_of [Byte.xc8])
      + (if bool_decide (MR = MI) then 4 else 0)
  /\ exists r, reg_name 1 = Ok r /\ Some "ecx"%string = Some r.
Proof.
  pose proof (X15_addressing_decoder_shape [Byte.xc8] 1
                (info 0x89 "mov" true MR)
                (Instruction.mk (Some "mov"%string) (Some MR) PNone
                   (Some "ecx"%string) (Some "eax"%string) None None None
                   false)
                2 Byte.xc8 3 1 0
                ltac:(vm_compute; reflexivity)
                ltac:(vm_compute; reflexivity)
                ltac:(vm_compute; reflexivity)) as (H1 & H2 & _).
  split; [exact H1 | exact H2].
Defined.

(** ** Near calls and jumps *)

Lemma near_one_byte (b : byte) (rest : list byte) (offset : Z) (mn : string) :
  GLOBAL_INSTRUCTIONS_MAP !! byte_val b
    = Some (info (byte_val b) mn false D) ->
  disassemble (b :: rest) offset
  = Ok (Instruction.mk (Some mn) (Some D)
          (PInt (offset + 5
                 + from_bytes_little_signed (py_slice rest None (Some 4))))
          None None None None None false, 5).
Proof.
  intros Hk. unfold disassemble, select_record. rewrite py_index_head.
  unfold mbind, result_bind. cbv beta iota. rewrite Hk.
  unfold decode_selected. cbn [has_modrm encoding info local].
  rewrite !bool_decide_eq_false_2 by discriminate. cbn [orb].
  unfold mbind, result_bind. rewrite py_slice_tail.
  rewrite no_modrm_relative by reflexivity.
  cbn [imm_size mnemonic info].
  match goal with
  | |- context [PInt (?e + (offset + (1 + 4)))] =>
      replace (e + (offset + (1 + 4))) with (offset + 5 + e) by lia
  end.
  reflexivity.
Qed.

Lemma near_two_byte (b2 : byte) (rest : list byte) (offset : Z)
    (mn : string) :
  GLOBAL_INSTRUCTIONS_MAP !! (256 * 0x0F + byte_val b2)
    = Some (info (256 * 0x0F + byte_val b2) mn false D) ->
  disassemble (Byte.x0f :: b2 :: rest) offset
  = Ok (Instruction.mk (Some mn) (Some D)
          (PInt (offset + 6
                 + from_bytes_little_signed (py_slice rest None (Some 4))))
          None None None None None false, 6).
Proof.
  intros Hk. unfold disassemble, select_record. rewrite py_index_head.
  unfold mbind, result_bind. cbv beta iota.
  replace (GLOBAL_INSTRUCTIONS_MAP !! byte_val Byte.x0f) with
    (@None InstructionInfo) by (vm_compute; reflexivity).
  rewrite from_bytes_big_two. change (byte_val Byte.x0f) with 0x0F.
  rewrite Hk.
  unfold decode_selected. cbn [has_modrm encoding info local].
  rewrite !bool_decide_eq_false_2 by discriminate. cbn [orb].
  unfold mbind, result_bind.
  replace (py_slice (Byte.x0f :: b2 :: rest) (Some 2) None) with rest
    by (rewrite py_slice_from by lia; reflexivity).
  rewrite no_modrm_relative by reflexivity.
  cbn [imm_size mnemonic info].
  match goal with
  | |- context [PInt (?e + (offset + (2 + 4)))] =>
      replace (e + (offset + (2 + 4))) with (offset + 6 + e) by lia
  end.
  reflexivity.
Qed.

Lemma from_bytes_little_signed_four (rest : list byte) :
  (4 <= length rest)%nat ->
  - 2 ^ 31 <= from_bytes_little_signed (py_slice rest None (Some 4)) < 2 ^ 31.
Proof.
  intros Hlen. rewrite py_slice_upto by lia. change (Z.to_nat 4) with 4%nat.
  unfold from_bytes_little_signed.
  rewrite length_take, Nat.min_l by lia.
  change (8 * Z.of_nat 4) with 32. change (0 <? 32) with true.
  change (32 - 1) with 31. cbn [andb].
  pose proof (from_bytes_little_take_bound rest 4) as Hb.
  change (256 ^ Z.of_nat 4) with (2 ^ 32) in Hb.
  destruct (Z.leb_spec (2 ^ 31) (from_bytes_little (take 4 rest))); lia.
Qed.

(** X16.  The near forms [E8] ([call]) and [E9] ([jmp]) consume 5 bytes and
    [0F 84] ([jz]) and [0F 85] ([jnz]) consume 6; each stores as its
    destination the offset plus that size plus the following four bytes
    read little-endian and signed, which is a displacement in
    [-2^31, 2^31) whenever four bytes do follow. *)
Theorem X16_near_destination (rest : list byte) (offset : Z) :
  let d := from_bytes_little_signed (py_slice rest None (Some 4)) in
  let tok mn size :=
    (Instruction.mk (Some mn) (Some D) (PInt (offset + size + d)) None None
       None None None false, size) in
  disassemble (Byte.xe8 :: rest) offset = Ok (tok "call"%string 5)
  /\ disassemble (Byte.xe9 :: rest) offset = Ok (tok "jmp"%string 5)
  /\ disassemble (Byte.x0f :: Byte.x84 :: rest) offset
     = Ok (tok "jz"%string 6)
  /\ disassemble (Byte.x0f :: Byte.x85 :: rest) offset
     = Ok (tok "jnz"%string 6)
  /\ ((4 <= length rest)%nat -> - 2 ^ 31 <= d < 2 ^ 31).
Proof.
  intros d tok.
  split; [apply near_one_byte; vm_compute; reflexivity|].
  split; [apply near_one_byte; vm_compute; reflexivity|].
  split; [apply near_two_byte; vm_compute; reflexivity|].
  split; [apply near_two_byte; vm_compute; reflexivity|].
  apply from_bytes_little_signed_four.
Qed.

(** [FC FF FF FF] is the displacement -4. *)
Lemma X16_witness :
  - 2 ^ 31
  <= from_bytes_little_signed
       (py_slice [Byte.xfc; Byte.xff; Byte.xff; Byte.xff] None (Some 4))
  < 2 ^ 31.
Proof.
  apply (proj2 (proj2 (proj2 (proj2
           (X16_near_destination
              [Byte.xfc; Byte.xff; Byte.xff; Byte.xff] 0))))).
  cbn. lia.
Defined.

(** The entry of [90]. *)
Lemma X1_witness :
  opcode (info 0x90 "nop" false ZO) = 0x90
  /\ entry_shape (0x90, info 0x90 "nop" false ZO).
Proof.
  apply (proj1 (proj2 (proj2 X1_table_invariants)) 0x90
           (info 0x90 "nop" false ZO)).
  vm_compute. reflexivity.
Defined.
